(** * Resource specification of a raylet: [python/ray/_private/resource_spec.py]

    A shallow embedding of [ResourceSpec] (its [resolved], [to_resource_dict]
    and [resolve] methods) and of the accelerator probes [_get_cuda_info],
    [_get_xpu_info], [_autodetect_num_gpus] and the helpers they call,
    followed by the properties of the resolver that the specification states.

    Conventions of the embedding.
    - A Python number is an [int] or a [float]; both are kept, tagged, with
      the rational they denote.  Comparisons between the two are exact, as in
      Python.  Products and differences that involve a float are rounded to
      binary64, as Python rounds them.  The quantities are finite numbers:
      [nan], [inf] and values that are not numbers are not represented.
    - A string is a sequence of ASCII characters: the character classes of
      [str.strip] and of the pattern are the ASCII ones.
    - A Python [dict] is an association list in insertion order, because the
      order decides which entry the validation loop rejects first.
    - A raised exception is a value of [exn]; a function that can raise
      returns a [result].
    - What the module reads from the machine ([ray._private.utils], [sys],
      [os], [GPUtil], [dpctl], [subprocess]) and the constants of
      [ray._private.ray_constants] are fields of two records taken as
      section variables. *)

From Stdlib Require Import ZArith QArith Qround Qminmax String Ascii List Bool Lia.
Import ListNotations.

Local Open Scope string_scope.
Local Open Scope Z_scope.

(** ** Python numbers *)

Module Num.

Inductive number : Type :=
| PyInt (z : Z)
| PyFloat (q : Q).

(** The rational a number denotes. *)
Definition value (n : number) : Q :=
  match n with
  | PyInt z => inject_Z z
  | PyFloat q => q
  end.

(** [a < b], [a > b], [a == b], [a != b] *)
Definition ltb (a b : number) : bool := negb (Qle_bool (value b) (value a)).
Definition gtb (a b : number) : bool := ltb b a.
Definition eqb (a b : number) : bool := Qeq_bool (value a) (value b).
Definition neqb (a b : number) : bool := negb (eqb a b).

(** [isinstance(n, float)] *)
Definition is_float (n : number) : bool :=
  match n with
  | PyInt _ => false
  | PyFloat _ => true
  end.

(** [float.is_integer] *)
Definition is_integer (q : Q) : bool := Qeq_bool (inject_Z (Qfloor q)) q.

(** [int(n)]: truncation toward zero. *)
Definition int (n : number) : Z :=
  match n with
  | PyInt z => z
  | PyFloat q => Z.quot (Qnum q) (Zpos (Qden q))
  end.

(** Rounding to binary64, the format of a Python [float]: to the nearest
    number [m * 2^e] with [m < 2^53] and [e >= -1074], ties to the even
    [m].  [round_half_even n d] rounds [n / d], and [floor_log2 n d] is the
    integer part of the binary logarithm of [n / d], for positive [n] and
    [d].  The exponent is not bounded above: beyond the largest double
    Python gives [inf] or raises [OverflowError]. *)
Definition round_half_even (n d : Z) : Z :=
  let q := n / d in
  let r := n mod d in
  match 2 * r ?= d with
  | Lt => q
  | Gt => q + 1
  | Eq => if Z.even q then q else q + 1
  end.

Definition floor_log2 (n d : Z) : Z :=
  let k := Z.log2 n - Z.log2 d in
  if (if 0 <=? k then d * 2 ^ k <=? n else d <=? n * 2 ^ (- k))
  then k else k - 1.

Definition round64 (q : Q) : Q :=
  let n := Qnum q in
  let d := Zpos (Qden q) in
  if n =? 0 then 0%Q
  else
    let a := Z.abs n in
    let e := Z.max (floor_log2 a d - 52) (-1074) in
    let v :=
      if 0 <=? e
      then inject_Z (round_half_even a (d * 2 ^ e) * 2 ^ e)
      else Qred (Qmake (round_half_even (a * 2 ^ (- e)) d) (Z.to_pos (2 ^ (- e)))) in
    if n <? 0 then Qopp v else v.

(** [float(n)]: the double an operand of a float operation is read as.  An
    [int] is rounded; a [float] written as a decimal literal, such as
    [0.95], is the double nearest to it; a double is itself. *)
Definition as_double (n : number) : Q := round64 (value n).

(** [a * b] and [a - b]: exact on two [int]s, and otherwise the double
    nearest to the product, or to the difference, of the operands read as
    doubles. *)
Definition mul (a b : number) : number :=
  match a, b with
  | PyInt x, PyInt y => PyInt (x * y)
  | _, _ => PyFloat (round64 (as_double a * as_double b))
  end.

Definition sub (a b : number) : number :=
  match a, b with
  | PyInt x, PyInt y => PyInt (x - y)
  | _, _ => PyFloat (round64 (as_double a - as_double b))
  end.

(** [min(a, b)] and [max(a, b)] return one of their arguments, the first
    one unless the second is strictly smaller (resp. greater). *)
Definition min (a b : number) : number := if ltb b a then b else a.
Definition max (a b : number) : number := if gtb b a then b else a.

(** Whole, in the sense of the validation loop of [to_resource_dict]: an
    [int], or a [float] whose [is_integer()] holds. *)
Definition whole (n : number) : bool :=
  match n with
  | PyInt _ => true
  | PyFloat q => is_integer q
  end.

End Num.

Import Num.

(** ** Exceptions and results *)

(** The conditions asserted by the module. *)
Inductive assertion : Type :=
| NotInResources (name : string)   (* [assert name not in resources, resources] *)
| Resolved.                        (* [assert self.resolved()] *)

(** The [ValueError]s of the module, one per [raise] statement, named after
    the error each one signals. *)
Inductive value_error : Type :=
| ReservedResourceName                    (* "... is a reserved resource name, use another name instead." *)
| MismatchedVisibleDeviceCount (var : string)
                                          (* "Attempting to start raylet with {} GPUs, but CUDA_VISIBLE_DEVICES contains {}." *)
| RedisMemoryBelowMinimum                 (* "Attempting to cap Redis memory usage at {} bytes, but the minimum allowed is {} bytes." *)
| InsufficientMemory                      (* "... the amount of memory on this node available for tasks and actors ... is less than {}% of total." *)
| NotWholeNumber (label : string)         (* "Resource quantities must all be whole numbers." *)
| NegativeQuantity (label : string)       (* "Resource quantities must be nonnegative." *)
| ExceedsMaximum (label : string).        (* "Resource quantities must be at most {}." *)

(** What a library or system call of the machine can raise: the module
    tells [ImportError] from the rest. *)
Inductive failure : Type :=
| ImportError
| OtherFailure (cls : string).

Inductive exn : Type :=
| AssertionError (a : assertion)
| ValueError (v : value_error)
| UnboundLocalError (name : string)  (* a subclass of [NameError] *)
| Propagated (f : failure).          (* raised by a call, not caught here *)

Inductive result (A : Type) : Type :=
| Return (a : A)
| Raise (e : exn).

Arguments Return {A} a.
Arguments Raise {A} e.

Definition bind {A B : Type} (c : result A) (k : A -> result B) : result B :=
  match c with
  | Return a => k a
  | Raise e => Raise e
  end.

Notation "x <- c ;; k" := (bind c (fun x => k))
  (at level 61, c at next level, right associativity).
Notation "' pat <- c ;; k" := (bind c (fun x => match x with pat => k end))
  (at level 61, pat pattern, c at next level, right associativity).

(** The outcome of a library or system call, and the call itself. *)
Inductive outcome (A : Type) : Type :=
| Ok (a : A)
| Failed (f : failure).

Arguments Ok {A} a.
Arguments Failed {A} f.

Definition call {A : Type} (o : outcome A) : result A :=
  match o with
  | Ok a => Return a
  | Failed f => Raise (Propagated f)
  end.

(** [assert cond] *)
Definition assert (cond : bool) (a : assertion) : result unit :=
  if cond then Return tt else Raise (AssertionError a).

(** [try: c / except Exception: h] *)
Definition try_except {A : Type} (c : result A) (h : A) : A :=
  match c with
  | Return a => a
  | Raise _ => h
  end.

(** ** Dictionaries *)

Module Dict.

Definition dict : Type := list (string * number).

(** [d.get(k)] *)
Fixpoint get (d : dict) (k : string) : option number :=
  match d with
  | [] => None
  | (k', v) :: d' => if String.eqb k k' then Some v else get d' k
  end.

(** [k in d] *)
Definition mem (k : string) (d : dict) : bool :=
  match get d k with
  | Some _ => true
  | None => false
  end.

(** [d[k] = v]: an existing key keeps its place, a new one goes last. *)
Fixpoint set (d : dict) (k : string) (v : number) : dict :=
  match d with
  | [] => [(k, v)]
  | (k', v') :: d' =>
      if String.eqb k k' then (k', v) :: d' else (k', v') :: set d' k v
  end.

(** [d.update(e)] *)
Definition update (d e : dict) : dict :=
  fold_left (fun acc kv => set acc (fst kv) (snd kv)) e d.

End Dict.

Import Dict.

(** ** Strings: the [str] methods and the pattern the module uses *)

Module Str.

Definition code (c : ascii) : nat := nat_of_ascii c.

(** [str.isspace] on one ASCII character. *)
Definition is_space (c : ascii) : bool :=
  let n := code c in
  (Nat.leb 9 n && Nat.leb n 13) || (Nat.leb 28 n && Nat.leb n 32).

Definition is_upper (c : ascii) : bool :=
  let n := code c in Nat.leb 65 n && Nat.leb n 90.
Definition is_lower (c : ascii) : bool :=
  let n := code c in Nat.leb 97 n && Nat.leb n 122.
Definition is_digit (c : ascii) : bool :=
  let n := code c in Nat.leb 48 n && Nat.leb n 57.

(** The classes [\w] and [[A-Z0-9]] of the pattern, on ASCII. *)
Definition is_word (c : ascii) : bool :=
  is_upper c || is_lower c || is_digit c || Ascii.eqb c "_"%char.
Definition is_model (c : ascii) : bool := is_upper c || is_digit c.

(** [s.split(sep)] for a one-character separator. *)
Fixpoint split (sep : ascii) (s : string) : list string :=
  match s with
  | EmptyString => [EmptyString]
  | String c s' =>
      if Ascii.eqb c sep then EmptyString :: split sep s'
      else match split sep s' with
           | [] => [String c EmptyString]
           | w :: ws => String c w :: ws
           end
  end.

Fixpoint lstrip (s : string) : string :=
  match s with
  | EmptyString => EmptyString
  | String c s' => if is_space c then lstrip s' else s
  end.

Fixpoint rstrip (s : string) : string :=
  match s with
  | EmptyString => EmptyString
  | String c s' =>
      match rstrip s' with
      | EmptyString => if is_space c then EmptyString else String c EmptyString
      | r => String c r
      end
  end.

(** [s.strip()] *)
Definition strip (s : string) : string := rstrip (lstrip s).

(** [s.startswith(p)] *)
Definition startswith (s p : string) : bool := String.prefix p s.

(** The longest prefix of [s] whose characters satisfy [p], and the rest. *)
Fixpoint span (p : ascii -> bool) (s : string) : string * string :=
  match s with
  | EmptyString => (EmptyString, EmptyString)
  | String c s' =>
      if p c then let '(a, b) := span p s' in (String c a, b)
      else (EmptyString, s)
  end.

Definition is_empty (s : string) : bool :=
  match s with
  | EmptyString => true
  | String _ _ => false
  end.

End Str.

(** [GPU_NAME_PATTERN = re.compile(r"\w+\s+([A-Z0-9]+)")] and
    [_pretty_gpu_name]: [match] anchors at the start of [name].  The three
    runs are greedy, and giving characters back never helps: a shorter run of
    [\w] is followed by a word character, which is not a space, and a shorter
    run of [\s] is followed by a space, which is not in [[A-Z0-9]].  So the
    match, when there is one, takes the longest run each time. *)
Definition _pretty_gpu_name (name : option string) : option string :=
  match name with
  | None => None
  | Some n =>
      let '(w, r1) := Str.span Str.is_word n in
      if Str.is_empty w then None else
      let '(sp, r2) := Str.span Str.is_space r1 in
      if Str.is_empty sp then None else
      let '(g, _) := Str.span Str.is_model r2 in
      if Str.is_empty g then None else Some g
  end.

(** ** The resource specification *)

(** [NODE_ID_PREFIX] and [HEAD_NODE_RESOURCE_NAME] *)
Definition NODE_ID_PREFIX : string := "node:".
Definition HEAD_NODE_RESOURCE_NAME : string := NODE_ID_PREFIX ++ "__internal_head__".

(** The named tuple: every field can be [None]. *)
Record ResourceSpec : Type := mkResourceSpec {
  num_cpus : option number;
  num_gpus : option number;
  memory : option number;
  object_store_memory : option number;
  resources : option dict;
  redis_max_memory : option number
}.

Definition is_some {A : Type} (o : option A) : bool :=
  match o with
  | Some _ => true
  | None => false
  end.

(** [ResourceSpec.resolved] *)
Definition resolved (s : ResourceSpec) : bool :=
  is_some (num_cpus s) && is_some (num_gpus s) && is_some (memory s)
  && is_some (object_store_memory s) && is_some (resources s)
  && is_some (redis_max_memory s).

(** The constants of [ray._private.ray_constants] that the module reads. *)
Record ray_constants : Type := {
  MAX_RESOURCE_QUANTITY : number;
  DEFAULT_OBJECT_STORE_MEMORY_PROPORTION : number;
  MAC_DEGRADED_PERF_MMAP_SIZE_LIMIT : number;
  DEFAULT_OBJECT_STORE_MAX_MEMORY_BYTES : number;
  REQUIRE_SHM_SIZE_THRESHOLD : number;
  DEFAULT_REDIS_MAX_MEMORY_BYTES : number;
  REDIS_MINIMUM_MEMORY_BYTES : number;
  RESOURCE_CONSTRAINT_PREFIX : string
}.

(** What the module reads from the machine it runs on.  A call that can
    raise is an [outcome]. *)
Record machine : Type := {
  get_node_ip_address : string;               (* [ray.util.get_node_ip_address()] *)
  get_num_cpus : Z;                           (* [ray._private.utils.get_num_cpus()] *)
  get_current_accelerator : string;           (* [ray._private.utils.get_current_accelerator()] *)
  get_system_memory : Z;                      (* [ray._private.utils.get_system_memory()] *)
  estimate_available_memory : Z;              (* [ray._private.utils.estimate_available_memory()] *)
  get_shared_memory_bytes : Z;                (* [ray._private.utils.get_shared_memory_bytes()] *)
  platform : string;                          (* [sys.platform] *)
  get_cuda_visible_devices : option (list string);
  get_xpu_visible_devices : option (list string);
  find_spec_GPUtil : bool;                    (* [importlib.util.find_spec("GPUtil") is not None] *)
  GPUtil_getGPUs : outcome (list string);     (* the [name]s of [GPUtil.getGPUs()] *)
  proc_gpus : option (outcome (list string)); (* [os.listdir("/proc/driver/nvidia/gpus")], [None] when not a directory *)
  read_information : string -> outcome string; (* [open(f"{proc_gpus_path}/{d}/information").read()] *)
  wmic_lines : outcome (list string);         (* [subprocess.check_output(cmdargs).splitlines()] *)
  dpctl_get_devices : outcome nat             (* [import dpctl; len(dpctl.get_devices(...))] *)
}.

Section Resolver.

Variable rc : ray_constants.
Variable m : machine.

(** *** [ResourceSpec.to_resource_dict] *)

(** The body of the loop that checks the types: the whole number test, the
    sign test and the maximum test, in this order.  (The quantities of the
    model are finite numbers: [isinstance(q, int) or isinstance(q, float)]
    holds of every [number], and [int] never fails on one.) *)
Definition check_quantity (resource_label : string) (resource_quantity : number)
  : result unit :=
  if (match resource_quantity with
      | PyFloat q => negb (is_integer q)
      | PyInt _ => false
      end)
  then Raise (ValueError (NotWholeNumber resource_label))
  else if ltb resource_quantity (PyInt 0)
  then Raise (ValueError (NegativeQuantity resource_label))
  else if gtb resource_quantity (MAX_RESOURCE_QUANTITY rc)
  then Raise (ValueError (ExceedsMaximum resource_label))
  else Return tt.

Fixpoint check_quantities (items : dict) : result unit :=
  match items with
  | [] => Return tt
  | (resource_label, resource_quantity) :: rest =>
      _ <- check_quantity resource_label resource_quantity ;;
      check_quantities rest
  end.

(** [dict(self.resources, CPU=..., GPU=..., memory=int(...),
    object_store_memory=int(...))] *)
Definition merged_resources (custom : dict) (cpus gpus mem osm : number) : dict :=
  set (set (set (set custom "CPU" cpus) "GPU" gpus)
         "memory" (PyInt (int mem)))
    "object_store_memory" (PyInt (int osm)).

(** The comprehension that keeps the entries with [resource_quantity != 0]. *)
Definition drop_zero (d : dict) : dict :=
  filter (fun kv => neqb (snd kv) (PyInt 0)) d.

Definition to_resource_dict (self : ResourceSpec) : result dict :=
  _ <- assert (resolved self) Resolved ;;
  match num_cpus self, num_gpus self, memory self,
        object_store_memory self, resources self with
  | Some cpus, Some gpus, Some mem, Some osm, Some custom =>
      let resources := merged_resources custom cpus gpus mem osm in
      let resources := drop_zero resources in
      _ <- check_quantities resources ;;
      Return resources
  | _, _, _, _, _ => Raise (AssertionError Resolved)
  end.

(** *** Accelerator detection *)

Definition len {A : Type} (l : list A) : number := PyInt (Z.of_nat (length l)).

(** [_autodetect_num_gpus] *)
Definition _autodetect_num_gpus : result number :=
  if find_spec_GPUtil m then
    gpu_list <- call (GPUtil_getGPUs m) ;;
    Return (len gpu_list)
  else if Str.startswith (platform m) "linux" then
    match proc_gpus m with
    | Some listing =>
        entries <- call listing ;;
        Return (len entries)
    | None => Return (PyInt 0)
    end
  else if String.eqb (platform m) "win32" then
    lines <- call (wmic_lines m) ;;
    Return (len (filter (fun x => Str.startswith x "NVIDIA") (tl lines)))
  else Return (PyInt 0).

(** The constraint a model name gives: [{prefix + pretty_name: 1}] when the
    name is not empty, [{}] otherwise. *)
Definition constraint_of (pretty_name : option string) : dict :=
  match pretty_name with
  | Some p =>
      if Str.is_empty p then []
      else [(RESOURCE_CONSTRAINT_PREFIX rc ++ p, PyInt 1)]
  | None => []
  end.

(** [_get_gpu_types_gputil]: [gpu_list_names.pop()] is the last name. *)
Definition _get_gpu_types_gputil : result dict :=
  gpu_list_names <- call (GPUtil_getGPUs m) ;;
  match rev gpu_list_names with
  | info_str :: _ => Return (constraint_of (_pretty_gpu_name (Some info_str)))
  | [] => Return []
  end.

(** The loop of [_constraints_from_gpu_info]: the value of the first line
    of the form [Model: v]. *)
Fixpoint full_model_name (lines : list string) : option string :=
  match lines with
  | [] => None
  | line :: rest =>
      match Str.split ":" line with
      | [k; v] =>
          if String.eqb (Str.strip k) "Model" then Some (Str.strip v)
          else full_model_name rest
      | _ => full_model_name rest
      end
  end.

(** [_constraints_from_gpu_info]; the newline is character 10. *)
Definition _constraints_from_gpu_info (info_str : option string) : dict :=
  match info_str with
  | None => []
  | Some s =>
      let lines := Str.split (ascii_of_nat 10) s in
      constraint_of (_pretty_gpu_name (full_model_name lines))
  end.

(** [_get_gpu_info_string] *)
Definition _get_gpu_info_string : result (option string) :=
  if Str.startswith (platform m) "linux" then
    match proc_gpus m with
    | Some listing =>
        gpu_dirs <- call listing ;;
        match gpu_dirs with
        | d :: _ =>
            info_str <- call (read_information m d) ;;
            Return (Some info_str)
        | [] => Return None
        end
    | None => Return None
    end
  else Return None.

(** The body of the [try] of [_get_cuda_info]. *)
Definition detect_gpu_types : result dict :=
  if find_spec_GPUtil m then _get_gpu_types_gputil
  else
    info_string <- _get_gpu_info_string ;;
    Return (_constraints_from_gpu_info info_string).

(** The test that guards both [raise]s on the visible devices:
    [n is not None and ids is not None and n > len(ids)]. *)
Definition exceeds_visible (n : option number) (ids : option (list string)) : bool :=
  match n, ids with
  | Some n, Some ids => gtb n (len ids)
  | _, _ => false
  end.

(** [_get_cuda_info].  [gpu_types] starts as the empty string and stays so
    when the [try] fails; [resources.update("")] changes nothing, so the
    empty string is the empty dictionary here. *)
Definition _get_cuda_info (num_gpus : option number) : result (number * dict) :=
  let gpu_ids := get_cuda_visible_devices m in
  if exceeds_visible num_gpus gpu_ids
  then Raise (ValueError (MismatchedVisibleDeviceCount "CUDA_VISIBLE_DEVICES"))
  else
    num_gpus <-
      match num_gpus with
      | Some n => Return n
      | None =>
          n <- _autodetect_num_gpus ;;
          match gpu_ids with
          | Some ids => Return (min n (len ids))
          | None => Return n
          end
      end ;;
    let gpu_types := try_except detect_gpu_types [] in
    Return (num_gpus, gpu_types).

(** [_get_xpu_info]: only [ImportError] is caught. *)
Definition _get_xpu_info (num_xpus : option number) : result (number * dict) :=
  let xpu_ids := get_xpu_visible_devices m in
  if exceeds_visible num_xpus xpu_ids
  then Raise (ValueError (MismatchedVisibleDeviceCount "XPU_VISIBLE_DEVICES"))
  else
    num_xpus <-
      match num_xpus with
      | Some n => Return n
      | None =>
          n <- match dpctl_get_devices m with
               | Ok k => Return (PyInt (Z.of_nat k))
               | Failed ImportError => Return (PyInt 0)
               | Failed f => Raise (Propagated f)
               end ;;
          match xpu_ids with
          | Some ids => Return (min n (len ids))
          | None => Return n
          end
      end ;;
    let xpu_types := [(RESOURCE_CONSTRAINT_PREFIX rc ++ "xpu", PyInt 1)] in
    Return (num_xpus, xpu_types).

(** *** [ResourceSpec.resolve] *)

(** The float literals of [resolve], as they are written.  [1.0] and
    [100e6] are doubles; [0.95], [0.1] and [0.05] are not, they only occur
    as factors of a product, and [mul] reads a factor as the double nearest
    to it. *)
Definition f_1_0 : number := PyFloat (1 # 1).
Definition f_0_95 : number := PyFloat (95 # 100).
Definition f_0_1 : number := PyFloat (1 # 10).
Definition f_0_05 : number := PyFloat (5 # 100).
Definition f_100e6 : number := PyFloat (100000000 # 1).

(** The custom resources: the copy of the caller's mapping ([{}] when it is
    [None]), the four assertions, the node id resource and the head node
    resource. *)
Definition resolve_resources (self : ResourceSpec) (is_head : bool)
    (node_ip_address : option string) : result dict :=
  let resources :=
    match resources self with
    | Some d => d
    | None => []
    end in
  _ <- assert (negb (mem "CPU" resources)) (NotInResources "CPU") ;;
  _ <- assert (negb (mem "GPU" resources)) (NotInResources "GPU") ;;
  _ <- assert (negb (mem "memory" resources)) (NotInResources "memory") ;;
  _ <- assert (negb (mem "object_store_memory" resources))
         (NotInResources "object_store_memory") ;;
  let node_ip_address :=
    match node_ip_address with
    | Some a => a
    | None => get_node_ip_address m
    end in
  let resources := set resources (NODE_ID_PREFIX ++ node_ip_address) f_1_0 in
  if mem HEAD_NODE_RESOURCE_NAME resources
  then Raise (ValueError ReservedResourceName)
  else Return (if is_head then set resources HEAD_NODE_RESOURCE_NAME f_1_0
               else resources).

(** The accelerator: the local [num_gpus] is assigned in the two branches
    only; [None] is the unassigned local. *)
Definition resolve_accelerator (self : ResourceSpec) (resources : dict)
  : result (option number * dict) :=
  let accelerator := get_current_accelerator m in
  if String.eqb accelerator "CUDA" then
    '(n, gpu_types) <- _get_cuda_info (num_gpus self) ;;
    Return (Some n, update resources gpu_types)
  else if String.eqb accelerator "XPU" then
    '(n, gpu_types) <- _get_xpu_info (num_gpus self) ;;
    Return (Some n, update resources gpu_types)
  else Return (None, resources).

Definition avail_memory : number := PyInt (estimate_available_memory m).
Definition system_memory : number := PyInt (get_system_memory m).

(** [max_cap], after the adjustment made on Linux. *)
Definition object_store_max_cap : number :=
  let max_cap := DEFAULT_OBJECT_STORE_MAX_MEMORY_BYTES rc in
  if String.eqb (platform m) "linux" || String.eqb (platform m) "linux2" then
    let shm_avail := mul (PyInt (get_shared_memory_bytes m)) f_0_95 in
    min (max (REQUIRE_SHM_SIZE_THRESHOLD rc) shm_avail) max_cap
  else max_cap.

(** The object store size before the cap: the proportion of the available
    memory, limited on Mac. *)
Definition proportional_object_store_memory : number :=
  let object_store_memory :=
    PyInt (int (mul avail_memory (DEFAULT_OBJECT_STORE_MEMORY_PROPORTION rc))) in
  if String.eqb (platform m) "darwin"
  then min object_store_memory (MAC_DEGRADED_PERF_MMAP_SIZE_LIMIT rc)
  else object_store_memory.

(** The branch [if object_store_memory is None]. *)
Definition default_object_store_memory : number :=
  let object_store_memory := proportional_object_store_memory in
  let max_cap := object_store_max_cap in
  if gtb object_store_memory max_cap then max_cap else object_store_memory.

Definition default_redis_max_memory : number :=
  min (DEFAULT_REDIS_MAX_MEMORY_BYTES rc)
      (max (PyInt (int (mul avail_memory f_0_1))) (REDIS_MINIMUM_MEMORY_BYTES rc)).

Definition resolve_redis_max_memory (self : ResourceSpec) : result number :=
  let redis_max_memory :=
    match redis_max_memory self with
    | Some r => r
    | None => default_redis_max_memory
    end in
  if ltb redis_max_memory (REDIS_MINIMUM_MEMORY_BYTES rc)
  then Raise (ValueError RedisMemoryBelowMinimum)
  else Return redis_max_memory.

(** [avail_memory - object_store_memory - (redis_max_memory if is_head else 0)] *)
Definition default_memory (is_head : bool) (object_store_memory redis_max_memory : number)
  : number :=
  sub (sub avail_memory object_store_memory)
      (if is_head then redis_max_memory else PyInt 0).

(** [memory < 100e6 and memory < 0.05 * system_memory] *)
Definition below_both_floors (memory : number) : bool :=
  ltb memory f_100e6 && ltb memory (mul f_0_05 system_memory).

(** The branch [if memory is None].  (The message of the error divides by
    [system_memory]; a machine reports a positive amount.) *)
Definition resolve_memory (self : ResourceSpec) (is_head : bool)
    (object_store_memory redis_max_memory : number) : result number :=
  match memory self with
  | Some mem => Return mem
  | None =>
      let memory := default_memory is_head object_store_memory redis_max_memory in
      if below_both_floors memory
      then Raise (ValueError InsufficientMemory)
      else Return memory
  end.

Definition resolve (self : ResourceSpec) (is_head : bool)
    (node_ip_address : option string) : result ResourceSpec :=
  resources <- resolve_resources self is_head node_ip_address ;;
  let num_cpus :=
    match num_cpus self with
    | Some c => c
    | None => PyInt (get_num_cpus m)
    end in
  '(num_gpus, resources) <- resolve_accelerator self resources ;;
  let object_store_memory :=
    match object_store_memory self with
    | Some o => o
    | None => default_object_store_memory
    end in
  redis_max_memory <- resolve_redis_max_memory self ;;
  memory <- resolve_memory self is_head object_store_memory redis_max_memory ;;
  match num_gpus with
  | None => Raise (UnboundLocalError "num_gpus")
  | Some num_gpus =>
      let spec :=
        mkResourceSpec (Some num_cpus) (Some num_gpus) (Some memory)
          (Some object_store_memory) (Some resources) (Some redis_max_memory) in
      _ <- assert (resolved spec) Resolved ;;
      Return spec
  end.

End Resolver.

(** The failures that signal a collision with a reserved resource name: the
    four assertions on the custom resources and the [ValueError] on the head
    node resource. *)
Definition reserved_name_error (e : exn) : bool :=
  match e with
  | AssertionError (NotInResources _) => true
  | ValueError ReservedResourceName => true
  | _ => false
  end.

(** The failures of accelerator detection: a count above the visible
    devices, or a failure of a call that is not caught. *)
Definition detection_error (e : exn) : Prop :=
  (exists v, e = ValueError (MismatchedVisibleDeviceCount v))
  \/ (exists f, e = Propagated f).

(** The last step of [resolve]: the tuple is built from the locals, and
    [num_gpus] is one only if a branch assigned it. *)
Definition finish (cpus : number) (gpus : option number)
    (mem osm : number) (custom : dict) (redis : number) : result ResourceSpec :=
  match gpus with
  | None => Raise (UnboundLocalError "num_gpus")
  | Some g =>
      Return (mkResourceSpec (Some cpus) (Some g) (Some mem) (Some osm)
                (Some custom) (Some redis))
  end.

(** A quantity equal to one, as [1] or as [1.0]. *)
Definition one (v : number) : Prop := (value v == 1)%Q.

(** A quantity the validation loop of [to_resource_dict] accepts: a whole
    number that is not negative and not above the maximum. *)
Definition acceptable (rc : ray_constants) (v : number) : Prop :=
  ((exists z : Z, value v == inject_Z z)
   /\ 0 <= value v
   /\ value v <= value (MAX_RESOURCE_QUANTITY rc))%Q.

(** What an error of the validation loop says about the entry it names. *)
Definition rejects (rc : ray_constants) (err : value_error) (k : string) (v : number)
  : Prop :=
  ((err = NotWholeNumber k /\ ~ exists z : Z, value v == inject_Z z)
   \/ (err = NegativeQuantity k /\ value v < 0)
   \/ (err = ExceedsMaximum k /\ value (MAX_RESOURCE_QUANTITY rc) < value v))%Q.

(** ** Concrete nodes *)

Module Examples.

(** The values [ray_constants.py] gives these constants upstream. *)
Definition upstream_constants : ray_constants := {|
  MAX_RESOURCE_QUANTITY := PyFloat (100000000000000 # 1);
  DEFAULT_OBJECT_STORE_MEMORY_PROPORTION := PyFloat (3 # 10);
  MAC_DEGRADED_PERF_MMAP_SIZE_LIMIT := PyInt (2 * 2 ^ 30);
  DEFAULT_OBJECT_STORE_MAX_MEMORY_BYTES := PyInt (200 * 10 ^ 9);
  REQUIRE_SHM_SIZE_THRESHOLD := PyInt (10 ^ 10);
  DEFAULT_REDIS_MAX_MEMORY_BYTES := PyInt (10 ^ 10);
  REDIS_MINIMUM_MEMORY_BYTES := PyInt (10 ^ 7);
  RESOURCE_CONSTRAINT_PREFIX := "accelerator_type:"
|}.

Definition newline : string := String (ascii_of_nat 10) EmptyString.

(** A Linux node without [GPUtil] and [dpctl], with one NVidia device in
    [/proc] and two visible devices of each family. *)
Definition linux_node (accelerator : string) (system avail shm : Z) : machine := {|
  get_node_ip_address := "10.0.0.1";
  get_num_cpus := 8;
  get_current_accelerator := accelerator;
  get_system_memory := system;
  estimate_available_memory := avail;
  get_shared_memory_bytes := shm;
  platform := "linux";
  get_cuda_visible_devices := Some ["0"; "1"];
  get_xpu_visible_devices := Some ["0"; "1"];
  find_spec_GPUtil := false;
  GPUtil_getGPUs := Failed (OtherFailure "NameError");
  proc_gpus := Some (Ok ["0000:00:1e.0"]);
  read_information :=
    fun _ => Ok ("Model: Tesla V100-SXM2-16GB" ++ newline ++ "IRQ: 10" ++ newline);
  wmic_lines := Failed (OtherFailure "FileNotFoundError");
  dpctl_get_devices := Failed ImportError
|}.

(** A Windows node without [GPUtil] on which the [WMIC] command is missing. *)
Definition windows_node_without_wmic : machine := {|
  get_node_ip_address := "10.0.0.2";
  get_num_cpus := 4;
  get_current_accelerator := "CUDA";
  get_system_memory := 16 * 10 ^ 9;
  estimate_available_memory := 12 * 10 ^ 9;
  get_shared_memory_bytes := 0;
  platform := "win32";
  get_cuda_visible_devices := None;
  get_xpu_visible_devices := None;
  find_spec_GPUtil := false;
  GPUtil_getGPUs := Failed (OtherFailure "NameError");
  proc_gpus := None;
  read_information := fun _ => Failed (OtherFailure "FileNotFoundError");
  wmic_lines := Failed (OtherFailure "FileNotFoundError");
  dpctl_get_devices := Failed ImportError
|}.

(** Declarations. *)
Definition unset : ResourceSpec :=
  mkResourceSpec None None None None None None.

Definition with_object_store (o : Z) : ResourceSpec :=
  mkResourceSpec None None None (Some (PyInt o)) None None.

Definition with_memory (n : Z) : ResourceSpec :=
  mkResourceSpec None None (Some (PyInt n)) None None None.

Definition with_gpus_and_redis (g r : Z) : ResourceSpec :=
  mkResourceSpec None (Some (PyInt g)) None None None (Some (PyInt r)).

Definition with_resources_and_redis (d : dict) (r : Z) : ResourceSpec :=
  mkResourceSpec None None None None (Some d) (Some (PyInt r)).

End Examples.

(** ** Vocabulary of the further properties *)

(** Every character of [s] satisfies [p]. *)
Fixpoint all_chars (p : ascii -> bool) (s : string) : bool :=
  match s with
  | EmptyString => true
  | String c s' => p c && all_chars p s'
  end.

(** The last character of a string. *)
Fixpoint last_char (s : string) : option ascii :=
  match s with
  | EmptyString => None
  | String c EmptyString => Some c
  | String _ s' => last_char s'
  end.

(** [d.keys()] *)
Definition keys (d : dict) : list string := map fst d.

(** A model token: a non-empty run of upper-case letters and digits. *)
Definition model_token (g : string) : Prop :=
  g <> EmptyString /\ all_chars Str.is_model g = true.

(** What is left of an entry once the zero quantities are dropped. *)
Definition kept (v : option number) : option number :=
  match v with
  | Some q => if neqb q (PyInt 0) then Some q else None
  | None => None
  end.

(** The errors [resolve] can raise, apart from the unbound local. *)
Definition configuration_error (e : exn) : Prop :=
  reserved_name_error e = true
  \/ detection_error e
  \/ e = ValueError RedisMemoryBelowMinimum
  \/ e = ValueError InsufficientMemory.

(** [s] without the occurrences of the character [c]. *)
Fixpoint remove_char (c : ascii) (s : string) : string :=
  match s with
  | EmptyString => EmptyString
  | String a s' =>
      if Ascii.eqb a c then remove_char c s' else String a (remove_char c s')
  end.

(** A character other than [c]. *)
Definition other_than (c : ascii) (a : ascii) : bool := negb (Ascii.eqb a c).

(** * The image names of a release test: [release/ray_release/test.py] *)

Module Release.

(** What a test maps its keys to: a string, a tuple of integers (the shape
    of [DEFAULT_PYTHON_VERSION]), or something else read from the test
    definition (a number, a list, a mapping, [None]), which has no [replace]
    method. *)
Inductive value : Type :=
| Str (s : string)
| IntTuple (t : list Z)
| Other.

(** [class Test(dict)] *)
Definition Test : Type := list (string * value).

(** [self.get(k)] *)
Fixpoint lookup (self : Test) (k : string) : option value :=
  match self with
  | [] => None
  | (k', v) :: rest => if String.eqb k k' then Some v else lookup rest k
  end.

Inductive raised : Type :=
| AttributeError (attribute : string).

Inductive answer (A : Type) : Type :=
| Done (a : A)
| Fail (e : raised).

Arguments Done {A} a.
Arguments Fail {A} e.

(** [s.replace(old, new)] for a non-empty [old]: the occurrences of [old]
    are replaced from the left, without overlap.  [skip] counts the
    characters of an occurrence that are still to be passed over. *)
Fixpoint replace_from (old new : string) (skip : nat) (s : string) : string :=
  match s with
  | EmptyString => EmptyString
  | String c s' =>
      match skip with
      | S k => replace_from old new k s'
      | O =>
          if String.prefix old s
          then new ++ replace_from old new (String.length old - 1) s'
          else String c (replace_from old new 0 s')
      end
  end.

Definition replace (s old new : string) : string := replace_from old new 0 s.

(** [x or y] on strings *)
Definition or_else (x y : string) : string :=
  match x with
  | EmptyString => y
  | _ => x
  end.

Section Environment.

(** [DEFAULT_PYTHON_VERSION], the tuple computed when the module is loaded,
    and [os.environ.get("BUILDKITE_COMMIT")]. *)
Variable DEFAULT_PYTHON_VERSION : list Z.
Variable BUILDKITE_COMMIT : option string.

(** [Test.get_python_version] *)
Definition get_python_version (self : Test) : value :=
  match lookup self "python" with
  | Some v => v
  | None => IntTuple DEFAULT_PYTHON_VERSION
  end.

(** [os.environ.get("BUILDKITE_COMMIT", "")[:6] or "nightly"] *)
Definition ray_version : string :=
  or_else (substring 0 6 (match BUILDKITE_COMMIT with
                          | Some c => c
                          | None => EmptyString
                          end))
          "nightly".

(** [Test.get_ray_image] *)
Definition get_ray_image (self : Test) : answer string :=
  match get_python_version self with
  | Str v =>
      let python_version := "py-" ++ replace v "." "" in
      Done ("rayproject/ray:" ++ ray_version ++ "-" ++ python_version)
  | _ => Fail (AttributeError "replace")
  end.

(** [Test.get_anyscale_byod_image] *)
Definition get_anyscale_byod_image (self : Test) : answer string :=
  match get_ray_image self with
  | Done image => Done (replace image "rayproject" "anyscale")
  | Fail e => Fail e
  end.

End Environment.

End Release.

(** * Properties *)

(** ** Numbers *)

Section NumberFacts.

Local Open Scope Q_scope.

Lemma ltb_lt (a b : number) : ltb a b = true <-> value a < value b.
Proof.
  unfold ltb. rewrite negb_true_iff. split.
  - intros H. apply Qnot_le_lt. intros Hle.
    apply Qle_bool_iff in Hle. congruence.
  - intros H. destruct (Qle_bool (value b) (value a)) eqn:E; [|reflexivity].
    apply Qle_bool_iff in E. exfalso. exact (Qlt_not_le _ _ H E).
Qed.

Lemma ltb_ge (a b : number) : ltb a b = false <-> value b <= value a.
Proof.
  unfold ltb. rewrite negb_false_iff. apply Qle_bool_iff.
Qed.

Lemma gtb_gt (a b : number) : gtb a b = true <-> value b < value a.
Proof. unfold gtb. apply ltb_lt. Qed.

Lemma gtb_le (a b : number) : gtb a b = false <-> value a <= value b.
Proof. unfold gtb. apply ltb_ge. Qed.

Lemma eqb_eq (a b : number) : eqb a b = true <-> value a == value b.
Proof. unfold eqb. apply Qeq_bool_iff. Qed.

Lemma neqb_neq (a b : number) : neqb a b = true <-> ~ value a == value b.
Proof.
  unfold neqb, eqb. rewrite negb_true_iff. split.
  - apply Qeq_bool_neq.
  - intros H. destruct (Qeq_bool (value a) (value b)) eqn:E; [|reflexivity].
    apply Qeq_bool_iff in E. contradiction.
Qed.

Lemma value_sub_int (x y : Z) :
  value (sub (PyInt x) (PyInt y)) == inject_Z x - inject_Z y.
Proof.
  cbn [sub value]. unfold Z.sub, Qminus.
  rewrite inject_Z_plus, inject_Z_opp. reflexivity.
Qed.

Lemma value_min (a b : number) : value (min a b) == Qmin (value a) (value b).
Proof.
  unfold min. destruct (ltb b a) eqn:E.
  - apply ltb_lt in E. symmetry. apply Q.min_r. apply Qlt_le_weak, E.
  - apply ltb_ge in E. symmetry. apply Q.min_l. exact E.
Qed.

Lemma value_max (a b : number) : value (max a b) == Qmax (value a) (value b).
Proof.
  unfold max. destruct (gtb b a) eqn:E.
  - apply gtb_gt in E. symmetry. apply Q.max_r. apply Qlt_le_weak, E.
  - apply gtb_le in E. symmetry. apply Q.max_l. exact E.
Qed.

Lemma is_integer_spec (q : Q) :
  is_integer q = true <-> exists z : Z, q == inject_Z z.
Proof.
  unfold is_integer. rewrite Qeq_bool_iff. split.
  - intros H. exists (Qfloor q). symmetry. exact H.
  - intros [z Hz]. rewrite Hz at 1. rewrite Qfloor_Z. symmetry. exact Hz.
Qed.

Lemma whole_spec (n : number) :
  whole n = true <-> exists z : Z, value n == inject_Z z.
Proof.
  destruct n as [z|q]; simpl.
  - split; [intros _; exists z; reflexivity | reflexivity].
  - apply is_integer_spec.
Qed.

End NumberFacts.

(** ** The stages of [resolve] *)

Section StageFacts.

Variable rc : ray_constants.
Variable m : machine.

(** Which errors each stage can raise. *)

Lemma assert_inv (c : bool) (a : assertion) (e : exn) :
  assert c a = Raise e -> c = false /\ e = AssertionError a.
Proof.
  unfold assert. destruct c; intros H; [discriminate|].
  injection H as <-. split; reflexivity.
Qed.

Lemma resolve_resources_raise self is_head ip e :
  resolve_resources m self is_head ip = Raise e ->
  reserved_name_error e = true.
Proof.
  unfold resolve_resources.
  repeat match goal with
  | |- context [assert ?c ?a] =>
      let E := fresh "E" in
      destruct (assert c a) eqn:E; cbn [bind];
      [clear E | apply assert_inv in E as [_ ->]; intros [= <-]; reflexivity]
  end.
  match goal with |- context [if ?c then _ else _] => destruct c end.
  - intros [= <-]. reflexivity.
  - discriminate.
Qed.

Lemma autodetect_raise e :
  _autodetect_num_gpus m = Raise e -> exists f, e = Propagated f.
Proof.
  unfold _autodetect_num_gpus.
  destruct (find_spec_GPUtil m).
  - destruct (GPUtil_getGPUs m) as [l|f]; cbn; [discriminate|].
    intros [= <-]. eauto.
  - destruct (Str.startswith (platform m) "linux").
    + destruct (proc_gpus m) as [[l|f]|]; cbn; try discriminate.
      intros [= <-]. eauto.
    + destruct (String.eqb (platform m) "win32"); [|discriminate].
      destruct (wmic_lines m) as [l|f]; cbn; [discriminate|].
      intros [= <-]. eauto.
Qed.

Lemma _get_cuda_info_raise n e :
  _get_cuda_info rc m n = Raise e -> detection_error e.
Proof.
  unfold _get_cuda_info.
  destruct (exceeds_visible n (get_cuda_visible_devices m)).
  - intros [= <-]. left. eauto.
  - destruct n as [n|]; cbn [bind]; [discriminate|].
    destruct (_autodetect_num_gpus m) as [k|e'] eqn:E; cbn [bind].
    + destruct (get_cuda_visible_devices m); discriminate.
    + intros [= <-]. right. eapply autodetect_raise, E.
Qed.

Lemma _get_xpu_info_raise n e :
  _get_xpu_info rc m n = Raise e -> detection_error e.
Proof.
  unfold _get_xpu_info.
  destruct (exceeds_visible n (get_xpu_visible_devices m)).
  - intros [= <-]. left. eauto.
  - destruct n as [n|]; cbn [bind]; [discriminate|].
    destruct (dpctl_get_devices m) as [k|[|cls]]; cbn [bind].
    + destruct (get_xpu_visible_devices m); discriminate.
    + destruct (get_xpu_visible_devices m); discriminate.
    + intros [= <-]. right. eauto.
Qed.

Lemma resolve_accelerator_raise self custom e :
  resolve_accelerator rc m self custom = Raise e -> detection_error e.
Proof.
  unfold resolve_accelerator.
  destruct (String.eqb (get_current_accelerator m) "CUDA").
  - destruct (_get_cuda_info rc m (num_gpus self)) as [[n t]|e'] eqn:E;
      cbn [bind]; [discriminate|].
    intros [= <-]. eapply _get_cuda_info_raise, E.
  - destruct (String.eqb (get_current_accelerator m) "XPU"); [|discriminate].
    destruct (_get_xpu_info rc m (num_gpus self)) as [[n t]|e'] eqn:E;
      cbn [bind]; [discriminate|].
    intros [= <-]. eapply _get_xpu_info_raise, E.
Qed.

Lemma resolve_redis_max_memory_raise self e :
  resolve_redis_max_memory rc m self = Raise e ->
  e = ValueError RedisMemoryBelowMinimum.
Proof.
  unfold resolve_redis_max_memory.
  match goal with |- context [if ?c then _ else _] => destruct c end.
  - intros [= <-]. reflexivity.
  - discriminate.
Qed.

Lemma below_both_floors_spec (mem : number) :
  below_both_floors m mem = true <->
  (value mem < 100000000 # 1
   /\ value mem < value (mul (PyFloat (5 # 100)) (PyInt (get_system_memory m))))%Q.
Proof.
  unfold below_both_floors. rewrite andb_true_iff, !ltb_lt. reflexivity.
Qed.

(** [resolve], stage by stage. *)
Lemma resolve_unfold self is_head ip :
  resolve rc m self is_head ip =
  (custom <- resolve_resources m self is_head ip ;;
   '(gpus, custom') <- resolve_accelerator rc m self custom ;;
   redis <- resolve_redis_max_memory rc m self ;;
   let osm := match object_store_memory self with
              | Some o => o
              | None => default_object_store_memory rc m
              end in
   mem <- resolve_memory m self is_head osm redis ;;
   finish (match num_cpus self with
           | Some c => c
           | None => PyInt (get_num_cpus m)
           end) gpus mem osm custom' redis).
Proof.
  unfold resolve, finish.
  destruct (resolve_resources m self is_head ip); cbn [bind]; [|reflexivity].
  destruct (resolve_accelerator rc m self a) as [[gpus custom']|];
    cbn [bind]; [|reflexivity].
  destruct (resolve_redis_max_memory rc m self); cbn [bind]; [|reflexivity].
  destruct (resolve_memory m self is_head _ a0); cbn [bind]; [|reflexivity].
  destruct gpus; reflexivity.
Qed.

End StageFacts.

(** ** Task memory *)

(** C1.  When the [memory] field is unset and resolution reaches the task
    memory, on a machine that reports some system memory, the value is the
    available memory minus the object store memory, minus the redis cap on
    the head node, in Python's arithmetic, which is exact on integers.
    [resolve] raises the insufficient memory error if and only if that value
    is below both [100e6] and [0.05 * system_memory], the product being the
    float that Python computes.  In every other case, and so for a value
    below [100e6] that is at least the 5% share, that value is the task
    memory of the declaration that [resolve] returns.  (Without system
    memory, building the message of the error would divide by zero.) *)
Theorem resolve_memory_floor (rc : ray_constants) (m : machine)
    (self : ResourceSpec) (is_head : bool) (ip : option string)
    (custom custom' : dict) (gpus : option number) (redis : number) :
  memory self = None ->
  0 < get_system_memory m ->
  resolve_resources m self is_head ip = Return custom ->
  resolve_accelerator rc m self custom = Return (gpus, custom') ->
  resolve_redis_max_memory rc m self = Return redis ->
  let osm := match object_store_memory self with
             | Some o => o
             | None => default_object_store_memory rc m
             end in
  let cpus := match num_cpus self with
              | Some c => c
              | None => PyInt (get_num_cpus m)
              end in
  let mem := sub (sub (PyInt (estimate_available_memory m)) osm)
                 (if is_head then redis else PyInt 0) in
  let floor := (100000000 # 1)%Q in
  let share := value (mul (PyFloat (5 # 100)) (PyInt (get_system_memory m))) in
  (resolve rc m self is_head ip = Raise (ValueError InsufficientMemory)
   <-> (value mem < floor /\ value mem < share)%Q)
  /\ (~ (value mem < floor /\ value mem < share)%Q ->
      forall g, gpus = Some g ->
      resolve rc m self is_head ip =
      Return (mkResourceSpec (Some cpus) (Some g) (Some mem) (Some osm)
                (Some custom') (Some redis)))
  /\ (forall o r : Z, osm = PyInt o -> redis = PyInt r ->
      mem = PyInt (estimate_available_memory m - o - (if is_head then r else 0))).
Proof.
  intros Hmem _ Hres Hacc Hredis osm cpus mem floor share.
  assert (Hstep : resolve rc m self is_head ip =
                  if below_both_floors m mem
                  then Raise (ValueError InsufficientMemory)
                  else finish cpus gpus mem osm custom' redis).
  { rewrite resolve_unfold, Hres. cbn [bind]. rewrite Hacc. cbn [bind].
    rewrite Hredis. cbn [bind]. unfold resolve_memory. rewrite Hmem.
    fold osm. unfold default_memory, avail_memory. fold mem.
    destruct (below_both_floors m mem); reflexivity. }
  split; [|split].
  - unfold floor, share. rewrite Hstep, <- below_both_floors_spec.
    destruct (below_both_floors m mem); [split; congruence|].
    split; [|discriminate]. unfold finish. destruct gpus; discriminate.
  - intros Hnot g ->. rewrite Hstep.
    destruct (below_both_floors m mem) eqn:E; [|reflexivity].
    apply below_both_floors_spec in E. contradiction.
  - intros o r Ho Hr. unfold mem. rewrite Ho, Hr.
    destruct is_head; cbn [sub]; f_equal; lia.
Qed.

(** Two nodes.  One with 1 GB of memory, 500 MB of them available, and a
    declaration that asks for 440 MB of object store: 60 MB are left, less
    than [100e6] and more than 5% of 1 GB, and resolution returns them.  One
    with 1400000001 bytes, 100 MB of them available, and an object store of
    29999999.950000003 bytes: the difference and the 5% share round to the
    same float, so the first is not below the second and resolution returns
    it. *)
Lemma resolve_memory_floor_witness :
  let rc := Examples.upstream_constants in
  let m := Examples.linux_node "CUDA" 1000000000 500000000 500000000 in
  let self := Examples.with_object_store 440000000 in
  let m' := Examples.linux_node "CUDA" 1400000001 100000000 500000000 in
  let self' := mkResourceSpec None None None
                 (Some (PyFloat (2013265916644557 # 67108864))) None None in
  resolve rc m self false None =
  Return (mkResourceSpec (Some (PyInt 8)) (Some (PyInt 1)) (Some (PyInt 60000000))
            (Some (PyInt 440000000))
            (Some [("node:10.0.0.1", PyFloat (1 # 1));
                   ("accelerator_type:V100", PyInt 1)])
            (Some (PyInt 50000000)))
  /\ resolve rc m' self' false None =
     Return (mkResourceSpec (Some (PyInt 8)) (Some (PyInt 1))
               (Some (PyFloat (4697620483355443 # 67108864)))
               (Some (PyFloat (2013265916644557 # 67108864)))
               (Some [("node:10.0.0.1", PyFloat (1 # 1));
                      ("accelerator_type:V100", PyInt 1)])
               (Some (PyInt 10000000))).
Proof.
  intros rc m self m' self'. split.
  - refine (proj1 (proj2 (resolve_memory_floor rc m self false None
              [("node:10.0.0.1", PyFloat (1 # 1))]
              [("node:10.0.0.1", PyFloat (1 # 1)); ("accelerator_type:V100", PyInt 1)]
              (Some (PyInt 1)) (PyInt 50000000) _ _ _ _ _)) _ (PyInt 1) _);
      try reflexivity.
    intros [_ H]. vm_compute in H. discriminate H.
  - refine (proj1 (proj2 (resolve_memory_floor rc m' self' false None
              [("node:10.0.0.1", PyFloat (1 # 1))]
              [("node:10.0.0.1", PyFloat (1 # 1)); ("accelerator_type:V100", PyInt 1)]
              (Some (PyInt 1)) (PyInt 10000000) _ _ _ _ _)) _ (PyInt 1) _);
      try reflexivity.
    intros [_ H]. vm_compute in H. discriminate H.
Defined.

(** C10.  With an explicit [memory], [resolve] never raises the insufficient
    memory error, however small the value: the test sits in the branch that
    computes the default. *)
Theorem resolve_explicit_memory_unchecked (rc : ray_constants) (m : machine)
    (self : ResourceSpec) (is_head : bool) (ip : option string) (mem : number) :
  memory self = Some mem ->
  resolve rc m self is_head ip <> Raise (ValueError InsufficientMemory)
  /\ forall s, resolve rc m self is_head ip = Return s -> memory s = Some mem.
Proof.
  intros Hmem. rewrite resolve_unfold.
  destruct (resolve_resources m self is_head ip) as [custom|e] eqn:Hres;
    cbn [bind].
  2:{ apply resolve_resources_raise in Hres. split; [|discriminate].
      intros [= ->]. discriminate Hres. }
  destruct (resolve_accelerator rc m self custom) as [[gpus custom']|e] eqn:Hacc;
    cbn [bind].
  2:{ apply resolve_accelerator_raise in Hacc. split; [|discriminate].
      intros [= ->]. destruct Hacc as [[v Hv]|[f Hf]]; discriminate. }
  destruct (resolve_redis_max_memory rc m self) as [redis|e] eqn:Hredis;
    cbn [bind].
  2:{ apply resolve_redis_max_memory_raise in Hredis. subst e.
      split; discriminate. }
  unfold resolve_memory. rewrite Hmem. cbn [bind]. unfold finish.
  destruct gpus; split; try discriminate.
  intros s [= <-]. reflexivity.
Qed.

(** The 1 GB node, not the head, with 1 byte of task memory requested: far
    below both floors, and resolution returns it. *)
Lemma resolve_explicit_memory_unchecked_witness :
  let rc := Examples.upstream_constants in
  let m := Examples.linux_node "CUDA" 1000000000 500000000 500000000 in
  let self := Examples.with_memory 1 in
  below_both_floors m (PyInt 1) = true
  /\ resolve rc m self false None <> Raise (ValueError InsufficientMemory)
  /\ exists s, resolve rc m self false None = Return s /\ memory s = Some (PyInt 1).
Proof.
  intros rc m self.
  pose proof (resolve_explicit_memory_unchecked rc m self false None (PyInt 1) eq_refl)
    as [Hno Hret].
  split; [reflexivity|]. split; [exact Hno|].
  eexists. split; [vm_compute; reflexivity|reflexivity].
Defined.

(** ** Dictionaries *)

Section DictFacts.

Lemma get_set_same (d : dict) (k : string) (v : number) :
  get (set d k v) k = Some v.
Proof.
  induction d as [|[k' v'] d IH]; cbn [set get].
  - rewrite String.eqb_refl. reflexivity.
  - destruct (String.eqb k k') eqn:E; cbn [get]; rewrite E; [reflexivity|exact IH].
Qed.

Lemma get_set_other (d : dict) (k k' : string) (v : number) :
  k <> k' -> get (set d k' v) k = get d k.
Proof.
  intros Hne. induction d as [|[k0 v0] d IH]; cbn [set get].
  - apply String.eqb_neq in Hne. rewrite Hne. reflexivity.
  - destruct (String.eqb k' k0) eqn:E; cbn [get].
    + apply String.eqb_eq in E. subst k0.
      apply String.eqb_neq in Hne. rewrite Hne. reflexivity.
    + rewrite IH. reflexivity.
Qed.

Lemma mem_set (d : dict) (k k' : string) (v : number) :
  mem k d = true -> mem k (set d k' v) = true.
Proof.
  unfold mem. destruct (string_dec k k') as [->|Hne].
  - rewrite get_set_same. reflexivity.
  - rewrite get_set_other by exact Hne. intros H; exact H.
Qed.

(** A property of the values that assignment keeps. *)
Lemma get_set_keeps (P : number -> Prop) (d : dict) (k k' : string) (v : number) :
  P v ->
  (exists w, get d k = Some w /\ P w) ->
  exists w, get (set d k' v) k = Some w /\ P w.
Proof.
  intros Hv [w [Hw HP]]. destruct (string_dec k k') as [->|Hne].
  - exists v. rewrite get_set_same. split; [reflexivity|exact Hv].
  - exists w. rewrite get_set_other by exact Hne. split; assumption.
Qed.

Lemma get_update_keeps (P : number -> Prop) (e d : dict) (k : string) :
  (forall k' v, In (k', v) e -> P v) ->
  (exists w, get d k = Some w /\ P w) ->
  exists w, get (update d e) k = Some w /\ P w.
Proof.
  unfold update. revert d.
  induction e as [|[k' v] e IH]; intros d He Hd; cbn [fold_left fst snd].
  - exact Hd.
  - apply IH.
    + intros k0 v0 Hin. apply (He k0 v0). right. exact Hin.
    + apply get_set_keeps; [|exact Hd]. apply (He k' v). left. reflexivity.
Qed.

End DictFacts.

(** ** Reserved names and the node resource *)

Section ResourceFacts.

Variable rc : ray_constants.
Variable m : machine.

Lemma constraint_of_one (p : option string) (k : string) (v : number) :
  In (k, v) (constraint_of rc p) -> one v.
Proof.
  unfold constraint_of. destruct p as [p|]; [|intros []].
  destruct (Str.is_empty p); [intros []|].
  intros [[= _ <-]|[]]. reflexivity.
Qed.

Lemma detect_gpu_types_one (t : dict) (k : string) (v : number) :
  detect_gpu_types rc m = Return t -> In (k, v) t -> one v.
Proof.
  unfold detect_gpu_types, _get_gpu_types_gputil, _get_gpu_info_string,
    _constraints_from_gpu_info.
  destruct (find_spec_GPUtil m).
  - destruct (GPUtil_getGPUs m) as [names|f]; cbn [call bind]; [|discriminate].
    destruct (rev names); intros [= <-]; [intros []|apply constraint_of_one].
  - destruct (Str.startswith (platform m) "linux").
    + destruct (proc_gpus m) as [[[|d ds]|f]|]; cbn [call bind];
        try discriminate; try (intros [= <-]; intros []).
      destruct (read_information m d); cbn [call bind]; [|discriminate].
      intros [= <-]. apply constraint_of_one.
    + cbn [bind]. intros [= <-]. intros [].
Qed.

Lemma _get_cuda_info_one n k t key v :
  _get_cuda_info rc m n = Return (k, t) -> In (key, v) t -> one v.
Proof.
  unfold _get_cuda_info.
  destruct (exceeds_visible n (get_cuda_visible_devices m)); [discriminate|].
  match goal with |- context [bind ?c _] => destruct c end;
    cbn [bind]; [|discriminate].
  intros [= _ <-]. unfold try_except.
  destruct (detect_gpu_types rc m) eqn:E; [|intros []].
  eapply detect_gpu_types_one, E.
Qed.

Lemma _get_xpu_info_one n k t key v :
  _get_xpu_info rc m n = Return (k, t) -> In (key, v) t -> one v.
Proof.
  unfold _get_xpu_info.
  destruct (exceeds_visible n (get_xpu_visible_devices m)); [discriminate|].
  match goal with |- context [bind ?c _] => destruct c end;
    cbn [bind]; [|discriminate].
  intros [= _ <-]. intros [[= _ <-]|[]]. reflexivity.
Qed.

Lemma resolve_accelerator_keeps self custom gpus custom' key :
  resolve_accelerator rc m self custom = Return (gpus, custom') ->
  (exists w, get custom key = Some w /\ one w) ->
  exists w, get custom' key = Some w /\ one w.
Proof.
  unfold resolve_accelerator.
  destruct (String.eqb (get_current_accelerator m) "CUDA").
  - destruct (_get_cuda_info rc m (num_gpus self)) as [[n t]|] eqn:E;
      cbn [bind]; [|discriminate].
    intros [= _ <-]. apply get_update_keeps.
    intros k' v. eapply _get_cuda_info_one, E.
  - destruct (String.eqb (get_current_accelerator m) "XPU").
    + destruct (_get_xpu_info rc m (num_gpus self)) as [[n t]|] eqn:E;
        cbn [bind]; [|discriminate].
      intros [= _ <-]. apply get_update_keeps.
      intros k' v. eapply _get_xpu_info_one, E.
    + intros [= _ <-] H. exact H.
Qed.

Lemma resolve_resources_node self is_head ip custom :
  resolve_resources m self is_head ip = Return custom ->
  let addr := match ip with Some a => a | None => get_node_ip_address m end in
  exists w, get custom (NODE_ID_PREFIX ++ addr) = Some w /\ one w.
Proof.
  unfold resolve_resources.
  repeat match goal with
  | |- context [assert ?c ?a] => destruct (assert c a); cbn [bind]; [|discriminate]
  end.
  match goal with |- context [if ?c then _ else _] => destruct c end;
    [discriminate|].
  intros [= <-].
  set (addr := match ip with Some a => a | None => get_node_ip_address m end).
  assert (H : exists w, get (set (match resources self with Some d => d | None => [] end)
                               (NODE_ID_PREFIX ++ addr) f_1_0)
                          (NODE_ID_PREFIX ++ addr) = Some w /\ one w).
  { exists f_1_0. rewrite get_set_same. split; reflexivity. }
  destruct is_head; [|exact H].
  apply get_set_keeps; [reflexivity|exact H].
Qed.

End ResourceFacts.

(** C2.  When the caller's custom resources contain [CPU], [GPU], [memory] or
    [object_store_memory], or the head node resource name, [resolve] raises a
    reserved name error and returns no declaration: an assertion on the name
    for the first four, the [ValueError] on the reserved name for the last. *)
Theorem resolve_reserved_name (rc : ray_constants) (m : machine)
    (self : ResourceSpec) (is_head : bool) (ip : option string) (custom : dict) :
  resources self = Some custom ->
  mem "CPU" custom = true \/ mem "GPU" custom = true
  \/ mem "memory" custom = true \/ mem "object_store_memory" custom = true
  \/ mem HEAD_NODE_RESOURCE_NAME custom = true ->
  exists e,
    resolve rc m self is_head ip = Raise e
    /\ reserved_name_error e = true
    /\ (forall s, resolve rc m self is_head ip <> Return s)
    /\ (mem "CPU" custom = false -> mem "GPU" custom = false ->
        mem "memory" custom = false -> mem "object_store_memory" custom = false ->
        e = ValueError ReservedResourceName).
Proof.
  intros Hres Hin.
  assert (H : exists e,
             resolve_resources m self is_head ip = Raise e
             /\ reserved_name_error e = true
             /\ (mem "CPU" custom = false -> mem "GPU" custom = false ->
                 mem "memory" custom = false ->
                 mem "object_store_memory" custom = false ->
                 e = ValueError ReservedResourceName)).
  { unfold resolve_resources. rewrite Hres.
    destruct (mem "CPU" custom) eqn:E1; cbn [negb assert bind].
    { eexists. repeat split. discriminate. }
    destruct (mem "GPU" custom) eqn:E2; cbn [negb assert bind].
    { eexists. repeat split. discriminate. }
    destruct (mem "memory" custom) eqn:E3; cbn [negb assert bind].
    { eexists. repeat split. discriminate. }
    destruct (mem "object_store_memory" custom) eqn:E4; cbn [negb assert bind].
    { eexists. repeat split. discriminate. }
    destruct Hin as [H|[H|[H|[H|H]]]]; try discriminate H.
    rewrite (mem_set _ _ _ _ H). eexists. repeat split. }
  destruct H as [e [He [Hr Hhead]]]. exists e.
  assert (Hraise : resolve rc m self is_head ip = Raise e).
  { rewrite resolve_unfold, He. reflexivity. }
  repeat split; try assumption.
  intros s. rewrite Hraise. discriminate.
Qed.

(** A declaration whose custom resources name the head node resource, and
    nothing else reserved, resolved on a node that is not the head. *)
Lemma resolve_reserved_name_witness :
  let rc := Examples.upstream_constants in
  let m := Examples.linux_node "CUDA" 1000000000 500000000 500000000 in
  let custom := [(HEAD_NODE_RESOURCE_NAME, PyInt 1)] in
  let self := mkResourceSpec None None None None (Some custom) None in
  resolve rc m self false None = Raise (ValueError ReservedResourceName).
Proof.
  intros rc m custom self.
  destruct (resolve_reserved_name rc m self false None custom eq_refl
              (or_intror (or_intror (or_intror (or_intror eq_refl)))))
    as [e [He [_ [_ Hhead]]]].
  rewrite He. f_equal. apply Hhead; reflexivity.
Defined.

(** C7.  A declaration that [resolve] returns has its six fields set, and its
    custom resources hold the node id resource [node:<address>] with a value
    equal to [1.0]. *)
Theorem resolve_returns_resolved (rc : ray_constants) (m : machine)
    (self : ResourceSpec) (is_head : bool) (ip : option string) (s : ResourceSpec) :
  resolve rc m self is_head ip = Return s ->
  let addr := match ip with Some a => a | None => get_node_ip_address m end in
  resolved s = true
  /\ (num_cpus s <> None /\ num_gpus s <> None /\ memory s <> None
      /\ object_store_memory s <> None /\ resources s <> None
      /\ redis_max_memory s <> None)
  /\ exists d v,
       resources s = Some d
       /\ get d (NODE_ID_PREFIX ++ addr) = Some v
       /\ (value v == 1)%Q.
Proof.
  intros Hret addr. rewrite resolve_unfold in Hret.
  destruct (resolve_resources m self is_head ip) as [custom|] eqn:Hres;
    cbn [bind] in Hret; [|discriminate].
  destruct (resolve_accelerator rc m self custom) as [[gpus custom']|] eqn:Hacc;
    cbn [bind] in Hret; [|discriminate].
  destruct (resolve_redis_max_memory rc m self) as [redis|];
    cbn [bind] in Hret; [|discriminate].
  match type of Hret with context [bind ?c _] => destruct c as [mem|] end;
    cbn [bind] in Hret; [|discriminate].
  unfold finish in Hret. destruct gpus as [g|]; [|discriminate].
  injection Hret as <-.
  cbn [resolved num_cpus num_gpus memory object_store_memory
         resources redis_max_memory is_some andb].
  split; [reflexivity|]. split; [repeat split; discriminate|].
  destruct (resolve_accelerator_keeps rc m self custom (Some g) custom'
              (NODE_ID_PREFIX ++ addr) Hacc
              (resolve_resources_node m self is_head ip custom Hres))
    as [w [Hw Hone]].
  exists custom', w. repeat split; assumption.
Qed.

(** The 32 GB head node resolved from the empty declaration. *)
Lemma resolve_returns_resolved_witness :
  let rc := Examples.upstream_constants in
  let m := Examples.linux_node "CUDA" 32000000000 24000000000 16000000000 in
  exists s d,
    resolve rc m Examples.unset true None = Return s
    /\ resolved s = true
    /\ resources s = Some d
    /\ get d "node:10.0.0.1" = Some (PyFloat (1 # 1)).
Proof.
  intros rc m.
  destruct (resolve rc m Examples.unset true None) as [s|e] eqn:E;
    [|vm_compute in E; discriminate E].
  destruct (resolve_returns_resolved rc m Examples.unset true None s E)
    as [Hr [_ _]].
  vm_compute in E. injection E as <-.
  eexists _, _. repeat split.
Defined.

(** ** The resource dictionary *)

Section QuantityFacts.

Variable rc : ray_constants.

Local Open Scope Q_scope.

Lemma check_quantity_cases (k : string) (v : number) :
  (check_quantity rc k v = Return tt /\ acceptable rc v)
  \/ (check_quantity rc k v = Raise (ValueError (NotWholeNumber k))
      /\ ~ exists z : Z, value v == inject_Z z)
  \/ (check_quantity rc k v = Raise (ValueError (NegativeQuantity k))
      /\ value v < 0)
  \/ (check_quantity rc k v = Raise (ValueError (ExceedsMaximum k))
      /\ value (MAX_RESOURCE_QUANTITY rc) < value v).
Proof.
  unfold check_quantity, acceptable.
  assert (Hw : (match v with PyFloat q => negb (is_integer q) | PyInt _ => false end)
               = negb (whole v)) by (destruct v; reflexivity).
  rewrite Hw. clear Hw.
  destruct (whole v) eqn:Ew; cbn [negb].
  2:{ right. left. split; [reflexivity|].
      rewrite <- whole_spec. congruence. }
  apply whole_spec in Ew.
  destruct (ltb v (PyInt 0)) eqn:En.
  { right. right. left. split; [reflexivity|]. apply ltb_lt in En. exact En. }
  apply ltb_ge in En.
  destruct (gtb v (MAX_RESOURCE_QUANTITY rc)) eqn:Em.
  { right. right. right. split; [reflexivity|]. apply gtb_gt in Em. exact Em. }
  apply gtb_le in Em. left. repeat split; assumption.
Qed.

Lemma acceptable_not (v : number) :
  acceptable rc v ->
  ~ (~ (exists z : Z, value v == inject_Z z)
     \/ value v < 0
     \/ value (MAX_RESOURCE_QUANTITY rc) < value v).
Proof.
  intros [Hw [Hn Hm]] [H|[H|H]].
  - contradiction.
  - exact (Qlt_not_le _ _ H Hn).
  - exact (Qlt_not_le _ _ H Hm).
Qed.

Lemma check_quantities_return (d : dict) :
  check_quantities rc d = Return tt ->
  forall k v, In (k, v) d -> acceptable rc v.
Proof.
  induction d as [|[k0 v0] d IH]; cbn [check_quantities]; intros H k v Hin.
  - destruct Hin.
  - destruct (check_quantity_cases k0 v0) as [[E Hok]|[[E _]|[[E _]|[E _]]]];
      rewrite E in H; cbn [bind] in H; try discriminate H.
    destruct Hin as [[= <- <-]|Hin]; [exact Hok|].
    exact (IH H k v Hin).
Qed.

Lemma check_quantities_raise (d : dict) (e : exn) :
  check_quantities rc d = Raise e ->
  exists err k v, e = ValueError err /\ In (k, v) d /\ rejects rc err k v.
Proof.
  unfold rejects.
  induction d as [|[k0 v0] d IH]; cbn [check_quantities]; intros H.
  - discriminate H.
  - destruct (check_quantity_cases k0 v0) as [[E Hok]|[[E Hb]|[[E Hb]|[E Hb]]]];
      rewrite E in H; cbn [bind] in H.
    + destruct (IH H) as [err [k [v [He [Hin Hr]]]]].
      exists err, k, v. repeat split; [exact He|right; exact Hin|exact Hr].
    + injection H as <-. exists (NotWholeNumber k0), k0, v0.
      repeat split; [left; reflexivity|]. left. split; [reflexivity|exact Hb].
    + injection H as <-. exists (NegativeQuantity k0), k0, v0.
      repeat split; [left; reflexivity|]. right. left. split; [reflexivity|exact Hb].
    + injection H as <-. exists (ExceedsMaximum k0), k0, v0.
      repeat split; [left; reflexivity|]. right. right. split; [reflexivity|exact Hb].
Qed.

Lemma check_quantities_total (d : dict) :
  check_quantities rc d = Return tt
  \/ exists e, check_quantities rc d = Raise e.
Proof.
  destruct (check_quantities rc d) as [[]|e]; [left; reflexivity|right; eauto].
Qed.

Lemma drop_zero_In (d : dict) (k : string) (v : number) :
  In (k, v) (drop_zero d) <-> In (k, v) d /\ ~ value v == 0.
Proof.
  unfold drop_zero. rewrite filter_In. cbn [snd].
  rewrite neqb_neq. reflexivity.
Qed.

End QuantityFacts.

(** C3, as stated, fails: the two memory sizes pass through [int] before
    the checks, so a size that is not a whole number, or a negative fraction,
    is truncated and not rejected.  [resolve] itself gives such sizes: on a
    Linux node with 64 GB available and 16 GiB of shared memory the object
    store is the cap [shm * 0.95], 16320875724.8 bytes, and
    [to_resource_dict] returns 16320875724.  A task memory of -0.5 is
    truncated to zero and dropped. *)
Lemma to_resource_dict_quantities_counterexample :
  let rc := Examples.upstream_constants in
  let m := Examples.linux_node "CUDA" 128000000000 64000000000 17179869184 in
  let cap := PyFloat (4278419646001971 # 262144) in
  let negative := mkResourceSpec (Some (PyInt 8)) (Some (PyInt 2))
                    (Some (PyFloat (-1 # 2))) (Some (PyInt 1000)) (Some [])
                    (Some (PyInt 10000000)) in
  (exists s d,
     resolve rc m Examples.unset false None = Return s
     /\ object_store_memory s = Some cap
     /\ ~ (exists z : Z, (value cap == inject_Z z)%Q)
     /\ to_resource_dict rc s = Return d
     /\ get d "object_store_memory" = Some (PyInt 16320875724))
  /\ (value (PyFloat (-1 # 2)) < 0)%Q
  /\ to_resource_dict rc negative =
     Return [("CPU", PyInt 8); ("GPU", PyInt 2); ("object_store_memory", PyInt 1000)].
Proof.
  intros rc m cap negative. split; [|split; reflexivity].
  eexists _, _. split; [vm_compute; reflexivity|].
  split; [reflexivity|]. split; [|split; [vm_compute; reflexivity|reflexivity]].
  intros [z Hz]. unfold Qeq in Hz. cbn in Hz. lia.
Qed.

(** C3, amended.  The mapping [to_resource_dict] returns has no zero entry,
    and every entry is a whole number, not negative and not above
    [MAX_RESOURCE_QUANTITY].  The checks bear on the merged mapping: the
    custom resources and the two counts as given, the two memory sizes after
    [int].  For a resolved declaration whose merged mapping has a non-zero
    entry that is not whole, is negative or is above the maximum,
    [to_resource_dict] raises a [ValueError], which names an entry and the
    condition this entry breaks. *)
Theorem to_resource_dict_quantities (rc : ray_constants) (self : ResourceSpec) :
  (forall d, to_resource_dict rc self = Return d ->
     forall k v, In (k, v) d ->
       (~ value v == 0
        /\ (exists z : Z, value v == inject_Z z)
        /\ 0 <= value v
        /\ value v <= value (MAX_RESOURCE_QUANTITY rc))%Q)
  /\ (forall cpus gpus mem osm custom redis k v,
        self = mkResourceSpec (Some cpus) (Some gpus) (Some mem) (Some osm)
                 (Some custom) (Some redis) ->
        In (k, v) (merged_resources custom cpus gpus mem osm) ->
        (~ value v == 0)%Q ->
        (~ (exists z : Z, value v == inject_Z z)
         \/ value v < 0
         \/ value (MAX_RESOURCE_QUANTITY rc) < value v)%Q ->
        exists err k' v',
          to_resource_dict rc self = Raise (ValueError err)
          /\ In (k', v') (merged_resources custom cpus gpus mem osm)
          /\ rejects rc err k' v').
Proof.
  split.
  - intros d. unfold to_resource_dict.
    destruct (resolved self); cbn [assert bind]; [|discriminate].
    destruct (num_cpus self) as [cpus|]; [|discriminate].
    destruct (num_gpus self) as [gpus|]; [|discriminate].
    destruct (memory self) as [mem|]; [|discriminate].
    destruct (object_store_memory self) as [osm|]; [|discriminate].
    destruct (resources self) as [custom|]; [|discriminate].
    destruct (check_quantities_total rc
                (drop_zero (merged_resources custom cpus gpus mem osm)))
      as [E|[e E]]; rewrite E; cbn [bind]; [|discriminate].
    intros [= <-] k v Hin.
    destruct (check_quantities_return rc _ E k v Hin) as [Hw [Hn Hm]].
    apply drop_zero_In in Hin as [_ Hz]. repeat split; assumption.
  - intros cpus gpus mem osm custom redis k v -> Hin Hz Hbad.
    unfold to_resource_dict. cbn [resolved num_cpus num_gpus memory
      object_store_memory resources redis_max_memory is_some andb assert bind].
    destruct (check_quantities_total rc
                (drop_zero (merged_resources custom cpus gpus mem osm)))
      as [E|[e E]]; rewrite E; cbn [bind].
    + exfalso. apply (acceptable_not rc v); [|exact Hbad].
      apply (check_quantities_return rc _ E k). apply drop_zero_In. split; assumption.
    + destruct (check_quantities_raise rc _ e E) as [err [k' [v' [-> [Hin' Hr]]]]].
      apply drop_zero_In in Hin' as [Hin' _].
      exists err, k', v'. repeat split; assumption.
Qed.

(** A resolved declaration with half a GPU is rejected for the whole number
    condition; one with two GPUs and no object store memory gives a mapping
    without the zero entry, whose CPU entry is within the maximum. *)
Lemma to_resource_dict_quantities_witness :
  let rc := Examples.upstream_constants in
  let half := mkResourceSpec (Some (PyInt 8)) (Some (PyFloat (1 # 2)))
                (Some (PyInt 1000)) (Some (PyInt 1000)) (Some [])
                (Some (PyInt 10000000)) in
  let two := mkResourceSpec (Some (PyInt 8)) (Some (PyInt 2))
               (Some (PyInt 1000)) (Some (PyInt 0)) (Some [])
               (Some (PyInt 10000000)) in
  (exists err k v,
     to_resource_dict rc half = Raise (ValueError err) /\ rejects rc err k v)
  /\ to_resource_dict rc two =
     Return [("CPU", PyInt 8); ("GPU", PyInt 2); ("memory", PyInt 1000)]
  /\ (value (PyInt 8) <= value (MAX_RESOURCE_QUANTITY rc))%Q.
Proof.
  intros rc half two. split; [|split].
  - destruct (proj2 (to_resource_dict_quantities rc half)
                (PyInt 8) (PyFloat (1 # 2)) (PyInt 1000) (PyInt 1000) []
                (PyInt 10000000) "GPU" (PyFloat (1 # 2)) eq_refl)
      as [err [k [v [H [_ Hr]]]]].
    + right. left. reflexivity.
    + intros H. discriminate H.
    + left. intros [z Hz]. unfold Qeq in Hz. cbn in Hz. lia.
    + exists err, k, v. split; assumption.
  - reflexivity.
  - apply (proj1 (to_resource_dict_quantities rc two)
             [("CPU", PyInt 8); ("GPU", PyInt 2); ("memory", PyInt 1000)]
             eq_refl "CPU" (PyInt 8)).
    left. reflexivity.
Defined.

(** ** Object store memory and the redis cap *)

Section SizingFacts.

Variable rc : ray_constants.
Variable m : machine.

Local Open Scope Q_scope.

Lemma value_object_store_max_cap :
  value (object_store_max_cap rc m) ==
  if (String.eqb (platform m) "linux" || String.eqb (platform m) "linux2")%bool
  then Qmin (Qmax (value (REQUIRE_SHM_SIZE_THRESHOLD rc))
               (value (mul (PyInt (get_shared_memory_bytes m)) (PyFloat (95 # 100)))))
         (value (DEFAULT_OBJECT_STORE_MAX_MEMORY_BYTES rc))
  else value (DEFAULT_OBJECT_STORE_MAX_MEMORY_BYTES rc).
Proof.
  unfold object_store_max_cap.
  destruct (String.eqb (platform m) "linux" || String.eqb (platform m) "linux2")%bool;
    [|reflexivity].
  rewrite value_min. apply Q.min_compat; [|reflexivity].
  rewrite value_max. reflexivity.
Qed.

Lemma value_proportional_object_store_memory :
  let proportional :=
    PyInt (int (mul (PyInt (estimate_available_memory m))
                  (DEFAULT_OBJECT_STORE_MEMORY_PROPORTION rc))) in
  value (proportional_object_store_memory rc m) ==
  if String.eqb (platform m) "darwin"
  then Qmin (value proportional) (value (MAC_DEGRADED_PERF_MMAP_SIZE_LIMIT rc))
  else value proportional.
Proof.
  intros proportional. unfold proportional_object_store_memory.
  destruct (String.eqb (platform m) "darwin"); [|reflexivity].
  rewrite value_min. reflexivity.
Qed.

Lemma value_default_object_store_memory :
  value (default_object_store_memory rc m) ==
  Qmin (value (proportional_object_store_memory rc m))
       (value (object_store_max_cap rc m)).
Proof.
  unfold default_object_store_memory. rewrite <- value_min. reflexivity.
Qed.

Lemma value_default_redis_max_memory :
  value (default_redis_max_memory rc m) ==
  Qmin (value (DEFAULT_REDIS_MAX_MEMORY_BYTES rc))
       (Qmax (inject_Z (int (mul (PyInt (estimate_available_memory m))
                                (PyFloat (1 # 10)))))
             (value (REDIS_MINIMUM_MEMORY_BYTES rc))).
Proof.
  unfold default_redis_max_memory. rewrite value_min.
  apply Q.min_compat; [reflexivity|]. rewrite value_max. reflexivity.
Qed.

End SizingFacts.

(** C4, as stated, fails: the default is not the product of the available
    memory and the proportion but that product truncated by [int].  With
    8000000005 bytes available and a proportion of 0.3 the product is
    2400000001.5, below every cap, and the resolved declaration holds
    2400000001. *)
Lemma resolve_default_object_store_counterexample :
  let rc := Examples.upstream_constants in
  let m := Examples.linux_node "CUDA" 16000000000 8000000005 16000000000 in
  let product := mul (PyInt (estimate_available_memory m))
                     (DEFAULT_OBJECT_STORE_MEMORY_PROPORTION rc) in
  exists s,
    resolve rc m Examples.unset false None = Return s
    /\ object_store_memory s = Some (PyInt 2400000001)
    /\ (value product == 4800000003 # 2)%Q
    /\ ~ (value (PyInt 2400000001) == value product)%Q.
Proof.
  intros rc m product. eexists. split; [vm_compute; reflexivity|].
  split; [reflexivity|]. split; [reflexivity|].
  intros H. vm_compute in H. discriminate H.
Qed.

(** C4, amended.  When the [object_store_memory] field is unset, a
    declaration that [resolve] returns holds the default: the product of the
    available memory and the proportion, truncated by [int], limited to the
    Mac ceiling on [darwin], then limited to the cap, which on Linux is the
    smaller of the absolute cap and the larger of the shared memory
    threshold and the float product [shm * 0.95], and elsewhere the absolute
    cap.  A default above the cap is replaced by the cap and raises nothing:
    resolution returns as soon as its other stages do. *)
Theorem resolve_default_object_store (rc : ray_constants) (m : machine)
    (self : ResourceSpec) (is_head : bool) (ip : option string) :
  object_store_memory self = None ->
  let proportional :=
    value (PyInt (int (mul (PyInt (estimate_available_memory m))
                         (DEFAULT_OBJECT_STORE_MEMORY_PROPORTION rc)))) in
  let limited :=
    if String.eqb (platform m) "darwin"
    then Qmin proportional (value (MAC_DEGRADED_PERF_MMAP_SIZE_LIMIT rc))
    else proportional in
  let cap :=
    if (String.eqb (platform m) "linux" || String.eqb (platform m) "linux2")%bool
    then Qmin (Qmax (value (REQUIRE_SHM_SIZE_THRESHOLD rc))
                 (value (mul (PyInt (get_shared_memory_bytes m))
                           (PyFloat (95 # 100)))))
           (value (DEFAULT_OBJECT_STORE_MAX_MEMORY_BYTES rc))
    else value (DEFAULT_OBJECT_STORE_MAX_MEMORY_BYTES rc) in
  (forall s, resolve rc m self is_head ip = Return s ->
     exists osm, object_store_memory s = Some osm
                 /\ (value osm == Qmin limited cap)%Q
                 /\ ((cap < limited)%Q -> osm = object_store_max_cap rc m))
  /\ (forall custom custom' gpus redis mem,
        resolve_resources m self is_head ip = Return custom ->
        resolve_accelerator rc m self custom = Return (Some gpus, custom') ->
        resolve_redis_max_memory rc m self = Return redis ->
        resolve_memory m self is_head (default_object_store_memory rc m) redis
          = Return mem ->
        exists s, resolve rc m self is_head ip = Return s).
Proof.
  intros Hosm proportional limited cap.
  assert (Hlim : (value (proportional_object_store_memory rc m) == limited)%Q)
    by apply value_proportional_object_store_memory.
  assert (Hcap : (value (object_store_max_cap rc m) == cap)%Q)
    by apply value_object_store_max_cap.
  split.
  - intros s Hret. rewrite resolve_unfold in Hret.
    destruct (resolve_resources m self is_head ip) as [custom|];
      cbn [bind] in Hret; [|discriminate].
    destruct (resolve_accelerator rc m self custom) as [[gpus custom']|];
      cbn [bind] in Hret; [|discriminate].
    destruct (resolve_redis_max_memory rc m self) as [redis|];
      cbn [bind] in Hret; [|discriminate].
    rewrite Hosm in Hret.
    destruct (resolve_memory m self is_head (default_object_store_memory rc m) redis)
      as [mem|]; cbn [bind] in Hret; [|discriminate].
    unfold finish in Hret. destruct gpus as [g|]; [|discriminate].
    injection Hret as <-. cbn [object_store_memory].
    exists (default_object_store_memory rc m). split; [reflexivity|]. split.
    + rewrite value_default_object_store_memory.
      apply Q.min_compat; assumption.
    + intros Hlt. unfold default_object_store_memory.
      destruct (gtb (proportional_object_store_memory rc m)
                  (object_store_max_cap rc m)) eqn:E; [reflexivity|].
      apply gtb_le in E. rewrite Hlim, Hcap in E.
      exfalso. exact (Qlt_not_le _ _ Hlt E).
  - intros custom custom' gpus redis mem Hres Hacc Hredis Hmem.
    rewrite resolve_unfold, Hres. cbn [bind]. rewrite Hacc. cbn [bind].
    rewrite Hredis. cbn [bind]. rewrite Hosm, Hmem. cbn [bind finish].
    eexists. reflexivity.
Qed.

(** A 64 GB Linux node with 40 GB available and 2 GB of shared memory: 30%
    of the available memory is 12 GB, above the cap of 10 GB, and the resolved
    declaration holds the cap. *)
Lemma resolve_default_object_store_witness :
  let rc := Examples.upstream_constants in
  let m := Examples.linux_node "CUDA" 64000000000 40000000000 2000000000 in
  exists s,
    resolve rc m Examples.unset false None = Return s
    /\ object_store_memory s = Some (PyInt 10000000000).
Proof.
  intros rc m.
  destruct (resolve rc m Examples.unset false None) as [s|e] eqn:E;
    [|vm_compute in E; discriminate E].
  destruct (proj1 (resolve_default_object_store rc m Examples.unset false None
                     eq_refl) s E) as [osm [Hs [_ Hcap]]].
  exists s. split; [reflexivity|].
  rewrite Hs, Hcap; [reflexivity|].
  vm_compute. reflexivity.
Defined.

(** C5, as stated, fails: the checks on the custom resources and on the
    visible devices come before the one on the redis cap.  A request of 100
    bytes of redis memory together with 4 GPUs, two devices being visible,
    raises the visible devices error; together with a custom resource named
    [CPU] it fails the assertion on that name. *)
Lemma resolve_redis_minimum_counterexample :
  let rc := Examples.upstream_constants in
  let m := Examples.linux_node "CUDA" 32000000000 24000000000 16000000000 in
  (value (PyInt 100) < value (REDIS_MINIMUM_MEMORY_BYTES rc))%Q
  /\ resolve rc m (Examples.with_gpus_and_redis 4 100) false None
     = Raise (ValueError (MismatchedVisibleDeviceCount "CUDA_VISIBLE_DEVICES"))
  /\ resolve rc m (Examples.with_resources_and_redis [("CPU", PyInt 1)] 100) false None
     = Raise (AssertionError (NotInResources "CPU"))
  /\ ~ (forall self : ResourceSpec,
          redis_max_memory self = Some (PyInt 100) ->
          resolve rc m self false None = Raise (ValueError RedisMemoryBelowMinimum)).
Proof.
  intros rc m. repeat split.
  intros H. specialize (H (Examples.with_gpus_and_redis 4 100) eq_refl).
  vm_compute in H. discriminate H.
Qed.

(** C5, amended.  The redis cap defaults to the smaller of the absolute default
    and the larger of 10% of the available memory (truncated) and the
    minimum.  When the cap, default or supplied, is below the minimum,
    [resolve] returns no declaration, and it raises the redis minimum error
    as soon as the custom resources and the accelerator stage pass, whatever
    the CPU, memory and object store fields are. *)
Theorem resolve_redis_minimum (rc : ray_constants) (m : machine)
    (self : ResourceSpec) (is_head : bool) (ip : option string) :
  let cap := match redis_max_memory self with
             | Some r => r
             | None => default_redis_max_memory rc m
             end in
  (value (default_redis_max_memory rc m) ==
   Qmin (value (DEFAULT_REDIS_MAX_MEMORY_BYTES rc))
        (Qmax (inject_Z (int (mul (PyInt (estimate_available_memory m))
                                 (PyFloat (1 # 10)))))
              (value (REDIS_MINIMUM_MEMORY_BYTES rc))))%Q
  /\ ((value cap < value (REDIS_MINIMUM_MEMORY_BYTES rc))%Q ->
      (forall s, resolve rc m self is_head ip <> Return s)
      /\ (forall custom custom' gpus,
            resolve_resources m self is_head ip = Return custom ->
            resolve_accelerator rc m self custom = Return (gpus, custom') ->
            resolve rc m self is_head ip
            = Raise (ValueError RedisMemoryBelowMinimum))).
Proof.
  intros cap. split; [apply value_default_redis_max_memory|]. intros Hlt.
  assert (Hredis : resolve_redis_max_memory rc m self
                   = Raise (ValueError RedisMemoryBelowMinimum)).
  { unfold resolve_redis_max_memory. fold cap.
    apply ltb_lt in Hlt. rewrite Hlt. reflexivity. }
  split.
  - intros s. rewrite resolve_unfold.
    destruct (resolve_resources m self is_head ip) as [custom|];
      cbn [bind]; [|discriminate].
    destruct (resolve_accelerator rc m self custom) as [[gpus custom']|];
      cbn [bind]; [|discriminate].
    rewrite Hredis. discriminate.
  - intros custom custom' gpus Hres Hacc.
    rewrite resolve_unfold, Hres. cbn [bind]. rewrite Hacc. cbn [bind].
    rewrite Hredis. reflexivity.
Qed.

(** A request of 100 bytes of redis memory and nothing else. *)
Lemma resolve_redis_minimum_witness :
  let rc := Examples.upstream_constants in
  let m := Examples.linux_node "CUDA" 32000000000 24000000000 16000000000 in
  let self := mkResourceSpec None None None None None (Some (PyInt 100)) in
  resolve rc m self true None = Raise (ValueError RedisMemoryBelowMinimum).
Proof.
  intros rc m self.
  refine (proj2 (proj2 (resolve_redis_minimum rc m self true None) _)
            [("node:10.0.0.1", PyFloat (1 # 1));
             ("node:__internal_head__", PyFloat (1 # 1))]
            [("node:10.0.0.1", PyFloat (1 # 1));
             ("node:__internal_head__", PyFloat (1 # 1));
             ("accelerator_type:V100", PyInt 1)]
            (Some (PyInt 1)) _ _); vm_compute; reflexivity.
Defined.

(** ** Visible devices *)

(** C6.  For the CUDA family and for the XPU family, when a count is
    requested and the list of visible devices is present, detection raises
    the visible devices error if the count exceeds the length of the list,
    and returns the requested count otherwise. *)
Theorem visible_devices_check (rc : ray_constants) (m : machine) (n : number) :
  (forall ids, get_cuda_visible_devices m = Some ids ->
     ((inject_Z (Z.of_nat (length ids)) < value n)%Q ->
      _get_cuda_info rc m (Some n)
      = Raise (ValueError (MismatchedVisibleDeviceCount "CUDA_VISIBLE_DEVICES")))
     /\ ((value n <= inject_Z (Z.of_nat (length ids)))%Q ->
         exists types, _get_cuda_info rc m (Some n) = Return (n, types)))
  /\ (forall ids, get_xpu_visible_devices m = Some ids ->
        ((inject_Z (Z.of_nat (length ids)) < value n)%Q ->
         _get_xpu_info rc m (Some n)
         = Raise (ValueError (MismatchedVisibleDeviceCount "XPU_VISIBLE_DEVICES")))
        /\ ((value n <= inject_Z (Z.of_nat (length ids)))%Q ->
            exists types, _get_xpu_info rc m (Some n) = Return (n, types))).
Proof.
  split; intros ids Hids; split; intros H.
  - unfold _get_cuda_info. rewrite Hids. cbn [exceeds_visible].
    apply (gtb_gt n (len ids)) in H. rewrite H. reflexivity.
  - unfold _get_cuda_info. rewrite Hids. cbn [exceeds_visible].
    apply (gtb_le n (len ids)) in H. rewrite H. cbn [bind].
    eexists. reflexivity.
  - unfold _get_xpu_info. rewrite Hids. cbn [exceeds_visible].
    apply (gtb_gt n (len ids)) in H. rewrite H. reflexivity.
  - unfold _get_xpu_info. rewrite Hids. cbn [exceeds_visible].
    apply (gtb_le n (len ids)) in H. rewrite H. cbn [bind].
    eexists. reflexivity.
Qed.

(** Four devices requested, two visible: both families refuse.  Two devices
    requested: both return two. *)
Lemma visible_devices_check_witness :
  let rc := Examples.upstream_constants in
  let m := Examples.linux_node "CUDA" 32000000000 24000000000 16000000000 in
  _get_cuda_info rc m (Some (PyInt 4))
  = Raise (ValueError (MismatchedVisibleDeviceCount "CUDA_VISIBLE_DEVICES"))
  /\ _get_xpu_info rc m (Some (PyInt 4))
     = Raise (ValueError (MismatchedVisibleDeviceCount "XPU_VISIBLE_DEVICES"))
  /\ (exists types, _get_cuda_info rc m (Some (PyInt 2)) = Return (PyInt 2, types))
  /\ (exists types, _get_xpu_info rc m (Some (PyInt 2)) = Return (PyInt 2, types)).
Proof.
  intros rc m.
  destruct (visible_devices_check rc m (PyInt 4)) as [Hc4 Hx4].
  destruct (visible_devices_check rc m (PyInt 2)) as [Hc2 Hx2].
  split; [|split; [|split]].
  - apply (proj1 (Hc4 ["0"; "1"] eq_refl)). reflexivity.
  - apply (proj1 (Hx4 ["0"; "1"] eq_refl)). reflexivity.
  - apply (proj2 (Hc2 ["0"; "1"] eq_refl)). intros H. discriminate H.
  - apply (proj2 (Hx2 ["0"; "1"] eq_refl)). intros H. discriminate H.
Defined.

(** ** Detection failures *)

(** C8.  Detection is meant to degrade: [_autodetect_num_gpus] documents
    that it returns "the number of GPUs if any were detected, otherwise 0",
    a missing driver directory and a missing [dpctl] give zero, and the
    detection of the type is wrapped in a [try].  The call of [WMIC] is
    not: on a Windows node without [GPUtil] where the command is missing,
    counting the GPUs raises, and the error leaves [_autodetect_num_gpus],
    [_get_cuda_info] and [resolve] instead of giving a count of zero. *)
Lemma detection_failure_counterexample :
  let rc := Examples.upstream_constants in
  let m := Examples.windows_node_without_wmic in
  let e := Propagated (OtherFailure "FileNotFoundError") in
  wmic_lines m = Failed (OtherFailure "FileNotFoundError")
  /\ _autodetect_num_gpus m = Raise e
  /\ _get_cuda_info rc m None = Raise e
  /\ resolve rc m Examples.unset false None = Raise e
  /\ ~ (exists k, _get_cuda_info rc m None = Return (k, [])).
Proof.
  intros rc m e. repeat split.
  intros [k H]. vm_compute in H. discriminate H.
Qed.

(** ** The unassigned accelerator count *)

(** C9, as stated, fails: the errors raised before the tuple is built win.
    With an accelerator that is neither CUDA nor XPU, a custom resource named
    [CPU] fails its assertion, and a redis cap of 100 bytes raises the redis
    minimum error. *)
Lemma resolve_unsupported_accelerator_counterexample :
  let rc := Examples.upstream_constants in
  let m := Examples.linux_node "TPU" 32000000000 24000000000 16000000000 in
  get_current_accelerator m <> "CUDA"
  /\ get_current_accelerator m <> "XPU"
  /\ resolve rc m (Examples.with_resources_and_redis [("CPU", PyInt 1)] 10000000)
       false None
     = Raise (AssertionError (NotInResources "CPU"))
  /\ resolve rc m (Examples.with_gpus_and_redis 1 100) false None
     = Raise (ValueError RedisMemoryBelowMinimum)
  /\ ~ (forall self : ResourceSpec,
          resolve rc m self false None = Raise (UnboundLocalError "num_gpus")).
Proof.
  intros rc m. split; [discriminate|]. split; [discriminate|]. repeat split.
  intros H. specialize (H (Examples.with_gpus_and_redis 1 100)).
  vm_compute in H. discriminate H.
Qed.

(** C9, amended.  With an accelerator that is neither CUDA nor XPU, [resolve]
    returns no declaration, whatever the input, its [num_gpus] field
    included; when the custom resources, the redis cap and the task memory
    pass their checks, the error is the unbound local [num_gpus]. *)
Theorem resolve_unsupported_accelerator (rc : ray_constants) (m : machine)
    (self : ResourceSpec) (is_head : bool) (ip : option string) :
  get_current_accelerator m <> "CUDA" ->
  get_current_accelerator m <> "XPU" ->
  (forall s, resolve rc m self is_head ip <> Return s)
  /\ (forall custom redis mem,
        resolve_resources m self is_head ip = Return custom ->
        resolve_redis_max_memory rc m self = Return redis ->
        resolve_memory m self is_head
          (match object_store_memory self with
           | Some o => o
           | None => default_object_store_memory rc m
           end) redis = Return mem ->
        resolve rc m self is_head ip = Raise (UnboundLocalError "num_gpus")).
Proof.
  intros Hcuda Hxpu.
  assert (Hacc : forall custom,
             resolve_accelerator rc m self custom = Return (None, custom)).
  { intros custom. unfold resolve_accelerator.
    apply String.eqb_neq in Hcuda, Hxpu. rewrite Hcuda, Hxpu. reflexivity. }
  split.
  - intros s. rewrite resolve_unfold.
    destruct (resolve_resources m self is_head ip) as [custom|];
      cbn [bind]; [|discriminate].
    rewrite Hacc. cbn [bind].
    destruct (resolve_redis_max_memory rc m self) as [redis|];
      cbn [bind]; [|discriminate].
    match goal with |- context [bind ?c _] => destruct c end;
      cbn [bind finish]; discriminate.
  - intros custom redis mem Hres Hredis Hmem.
    rewrite resolve_unfold, Hres. cbn [bind]. rewrite Hacc. cbn [bind].
    rewrite Hredis. cbn [bind]. rewrite Hmem. reflexivity.
Qed.

(** A declaration that asks for one GPU, on a node whose accelerator is
    neither CUDA nor XPU. *)
Lemma resolve_unsupported_accelerator_witness :
  let rc := Examples.upstream_constants in
  let m := Examples.linux_node "TPU" 32000000000 24000000000 16000000000 in
  let self := mkResourceSpec None (Some (PyInt 1)) None None None None in
  resolve rc m self false None = Raise (UnboundLocalError "num_gpus").
Proof.
  intros rc m self.
  refine (proj2 (resolve_unsupported_accelerator rc m self false None _ _)
            [("node:10.0.0.1", PyFloat (1 # 1))] (PyInt 2400000000)
            (PyInt 16800000000) _ _ _);
    try discriminate; vm_compute; reflexivity.
Defined.

(** * Further properties of the resolver *)

(** ** Errors and explicit fields *)

Section OutcomeFacts.

Variable rc : ray_constants.
Variable m : machine.

Lemma resolve_accelerator_unassigned self custom custom' :
  resolve_accelerator rc m self custom = Return (None, custom') ->
  get_current_accelerator m <> "CUDA" /\ get_current_accelerator m <> "XPU".
Proof.
  unfold resolve_accelerator.
  destruct (String.eqb (get_current_accelerator m) "CUDA") eqn:Ec.
  - destruct (_get_cuda_info rc m (num_gpus self)) as [[n t]|]; discriminate.
  - destruct (String.eqb (get_current_accelerator m) "XPU") eqn:Ex.
    + destruct (_get_xpu_info rc m (num_gpus self)) as [[n t]|]; discriminate.
    + intros _. split; apply String.eqb_neq; assumption.
Qed.

Lemma resolve_accelerator_count self custom gpus custom' :
  resolve_accelerator rc m self custom = Return (gpus, custom') ->
  forall g, num_gpus self = Some g -> gpus = None \/ gpus = Some g.
Proof.
  intros H g Hg. unfold resolve_accelerator in H. rewrite Hg in H.
  destruct (String.eqb (get_current_accelerator m) "CUDA").
  - unfold _get_cuda_info in H.
    destruct (exceeds_visible (Some g) (get_cuda_visible_devices m));
      cbn [bind] in H; [discriminate|].
    injection H as <- _. right. reflexivity.
  - destruct (String.eqb (get_current_accelerator m) "XPU").
    + unfold _get_xpu_info in H.
      destruct (exceeds_visible (Some g) (get_xpu_visible_devices m));
        cbn [bind] in H; [discriminate|].
      injection H as <- _. right. reflexivity.
    + injection H as <- _. left. reflexivity.
Qed.

Lemma resolve_memory_raise self is_head osm redis e :
  resolve_memory m self is_head osm redis = Raise e ->
  e = ValueError InsufficientMemory.
Proof.
  unfold resolve_memory. destruct (memory self); [discriminate|].
  destruct (below_both_floors m _); [|discriminate].
  intros [= <-]. reflexivity.
Qed.

End OutcomeFacts.

(** X1.  The errors of [resolve] are the reserved name errors, the errors of
    accelerator detection, the redis minimum error, the insufficient memory
    error and the unbound local [num_gpus]; the last one only when the
    accelerator is neither CUDA nor XPU.  The final assertion on [resolved]
    never fails. *)
Theorem resolve_raises_only (rc : ray_constants) (m : machine)
    (self : ResourceSpec) (is_head : bool) (ip : option string) (e : exn) :
  resolve rc m self is_head ip = Raise e ->
  (configuration_error e
   \/ (e = UnboundLocalError "num_gpus"
       /\ get_current_accelerator m <> "CUDA"
       /\ get_current_accelerator m <> "XPU"))
  /\ e <> AssertionError Resolved.
Proof.
  intros H. rewrite resolve_unfold in H.
  assert (Hcases :
    configuration_error e
    \/ (e = UnboundLocalError "num_gpus"
        /\ get_current_accelerator m <> "CUDA"
        /\ get_current_accelerator m <> "XPU")).
  { unfold configuration_error.
    destruct (resolve_resources m self is_head ip) as [custom|e0] eqn:Hres;
      cbn [bind] in H.
    2:{ injection H as <-. left. left. eapply resolve_resources_raise, Hres. }
    destruct (resolve_accelerator rc m self custom) as [[gpus custom']|e0] eqn:Hacc;
      cbn [bind] in H.
    2:{ injection H as <-. left. right. left.
        eapply resolve_accelerator_raise, Hacc. }
    destruct (resolve_redis_max_memory rc m self) as [redis|e0] eqn:Hredis;
      cbn [bind] in H.
    2:{ injection H as <-. left. right. right. left.
        eapply resolve_redis_max_memory_raise, Hredis. }
    match type of H with context [bind ?c _] => destruct c as [mem|e0] eqn:Hmem end;
      cbn [bind] in H.
    2:{ injection H as <-. left. right. right. right.
        eapply resolve_memory_raise, Hmem. }
    unfold finish in H. destruct gpus; [discriminate|].
    injection H as <-. right. split; [reflexivity|].
    eapply resolve_accelerator_unassigned, Hacc. }
  split; [exact Hcases|].
  intros ->. destruct Hcases as [[Hr|[[[v Hv]|[f Hf]]|[Hr|Hr]]]|[Hr _]];
    discriminate.
Qed.

(** On a node with an unknown accelerator the empty declaration ends on the
    unbound local. *)
Lemma resolve_raises_only_witness :
  let rc := Examples.upstream_constants in
  let m := Examples.linux_node "TPU" 32000000000 24000000000 16000000000 in
  let e := UnboundLocalError "num_gpus" in
  resolve rc m Examples.unset false None = Raise e
  /\ (configuration_error e
      \/ (e = UnboundLocalError "num_gpus"
          /\ get_current_accelerator m <> "CUDA"
          /\ get_current_accelerator m <> "XPU")).
Proof.
  intros rc m e. split; [reflexivity|].
  exact (proj1 (resolve_raises_only rc m Examples.unset false None e eq_refl)).
Defined.

(** X2.  A declaration that [resolve] returns keeps the caller's explicit
    CPU count, accelerator count, object store memory and redis cap as they
    were given (the object store memory is not capped then), and takes the
    CPU count of the machine when none is given. *)
Theorem resolve_keeps_explicit (rc : ray_constants) (m : machine)
    (self : ResourceSpec) (is_head : bool) (ip : option string) (s : ResourceSpec) :
  resolve rc m self is_head ip = Return s ->
  (forall c, num_cpus self = Some c -> num_cpus s = Some c)
  /\ (num_cpus self = None -> num_cpus s = Some (PyInt (get_num_cpus m)))
  /\ (forall g, num_gpus self = Some g -> num_gpus s = Some g)
  /\ (forall o, object_store_memory self = Some o -> object_store_memory s = Some o)
  /\ (forall r, redis_max_memory self = Some r -> redis_max_memory s = Some r).
Proof.
  intros H. rewrite resolve_unfold in H.
  destruct (resolve_resources m self is_head ip) as [custom|];
    cbn [bind] in H; [|discriminate].
  destruct (resolve_accelerator rc m self custom) as [[gpus custom']|] eqn:Hacc;
    cbn [bind] in H; [|discriminate].
  destruct (resolve_redis_max_memory rc m self) as [redis|] eqn:Hredis;
    cbn [bind] in H; [|discriminate].
  match type of H with context [bind ?c _] => destruct c as [mem|] end;
    cbn [bind] in H; [|discriminate].
  unfold finish in H. destruct gpus as [g0|]; [|discriminate].
  injection H as <-.
  cbn [num_cpus num_gpus object_store_memory redis_max_memory].
  repeat split.
  - intros c ->. reflexivity.
  - intros ->. reflexivity.
  - intros g Hg.
    destruct (resolve_accelerator_count rc m self custom _ _ Hacc g Hg) as [E|E];
      [discriminate E|exact E].
  - intros o ->. reflexivity.
  - intros r Hr. unfold resolve_redis_max_memory in Hredis. rewrite Hr in Hredis.
    destruct (ltb r (REDIS_MINIMUM_MEMORY_BYTES rc)); [discriminate|].
    injection Hredis as <-. reflexivity.
Qed.

(** A declaration asking for 150 GB of object store on the 32 GB node: the
    value is above what is available and is returned all the same. *)
Lemma resolve_keeps_explicit_witness :
  let rc := Examples.upstream_constants in
  let m := Examples.linux_node "CUDA" 32000000000 24000000000 16000000000 in
  let self := mkResourceSpec None None (Some (PyInt 1000)) (Some (PyInt 150000000000))
                None None in
  exists s, resolve rc m self false None = Return s
            /\ object_store_memory s = Some (PyInt 150000000000).
Proof.
  intros rc m self.
  destruct (resolve rc m self false None) as [s|e] eqn:E;
    [|vm_compute in E; discriminate E].
  exists s. split; [reflexivity|].
  exact (proj1 (proj2 (proj2 (proj2 (resolve_keeps_explicit rc m self false None s E))))
           (PyInt 150000000000) eq_refl).
Defined.

(** ** The accelerator count *)

Section CountFacts.

Variable rc : ray_constants.
Variable m : machine.

Local Open Scope Q_scope.

Lemma len_nonneg {A : Type} (l : list A) : 0 <= value (len l).
Proof.
  unfold len. cbn [value]. change 0 with (inject_Z 0).
  rewrite <- Zle_Qle. lia.
Qed.

Lemma min_le_r (a b : number) : value (min a b) <= value b.
Proof. rewrite value_min. apply Q.le_min_r. Qed.

Lemma min_nonneg (a b : number) :
  0 <= value a -> 0 <= value b -> 0 <= value (min a b).
Proof.
  intros Ha Hb. unfold min. destruct (ltb b a); assumption.
Qed.

Lemma autodetect_nonneg c :
  _autodetect_num_gpus m = Return c -> 0 <= value c.
Proof.
  unfold _autodetect_num_gpus.
  destruct (find_spec_GPUtil m).
  - destruct (GPUtil_getGPUs m); cbn [call bind]; [|discriminate].
    intros [= <-]. apply len_nonneg.
  - destruct (Str.startswith (platform m) "linux").
    + destruct (proc_gpus m) as [[l|f]|]; cbn [call bind]; try discriminate;
        intros [= <-]; [apply len_nonneg|apply Qle_refl].
    + destruct (String.eqb (platform m) "win32").
      * destruct (wmic_lines m); cbn [call bind]; [|discriminate].
        intros [= <-]. apply len_nonneg.
      * intros [= <-]. apply Qle_refl.
Qed.

Lemma exceeds_visible_false n ids :
  exceeds_visible (Some n) (Some ids) = false -> value n <= value (len ids).
Proof. cbn [exceeds_visible]. apply gtb_le. Qed.

Lemma _get_cuda_info_bounds n k types :
  _get_cuda_info rc m n = Return (k, types) ->
  (forall ids, get_cuda_visible_devices m = Some ids -> value k <= value (len ids))
  /\ (n = None -> 0 <= value k).
Proof.
  unfold _get_cuda_info.
  destruct (exceeds_visible n (get_cuda_visible_devices m)) eqn:Ex; [discriminate|].
  destruct n as [n|]; cbn [bind].
  - intros [= <- _]. split; [|discriminate].
    intros ids Hids. rewrite Hids in Ex. apply exceeds_visible_false, Ex.
  - destruct (_autodetect_num_gpus m) as [c|] eqn:Ec; cbn [bind]; [|discriminate].
    apply autodetect_nonneg in Ec.
    destruct (get_cuda_visible_devices m) as [ids|]; cbn [bind];
      intros [= <- _]; split.
    + intros ids' [= <-]. apply min_le_r.
    + intros _. apply min_nonneg; [exact Ec|apply len_nonneg].
    + discriminate.
    + intros _. exact Ec.
Qed.

Lemma _get_xpu_info_bounds n k types :
  _get_xpu_info rc m n = Return (k, types) ->
  (forall ids, get_xpu_visible_devices m = Some ids -> value k <= value (len ids))
  /\ (n = None -> 0 <= value k).
Proof.
  unfold _get_xpu_info.
  destruct (exceeds_visible n (get_xpu_visible_devices m)) eqn:Ex; [discriminate|].
  destruct n as [n|]; cbn [bind].
  - intros [= <- _]. split; [|discriminate].
    intros ids Hids. rewrite Hids in Ex. apply exceeds_visible_false, Ex.
  - assert (Hnat : forall k0 : nat, 0 <= value (PyInt (Z.of_nat k0))).
    { intros k0. cbn [value]. change 0 with (inject_Z 0).
      rewrite <- Zle_Qle. lia. }
    destruct (dpctl_get_devices m) as [k0|[|cls]]; cbn [bind];
      try discriminate;
      (destruct (get_xpu_visible_devices m) as [ids|]; cbn [bind];
       intros [= <- _]; split;
       [ intros ids' [= <-]; apply min_le_r
       | intros _; apply min_nonneg; [|apply len_nonneg]
       | discriminate
       | intros _ ]);
      try apply Hnat; apply Qle_refl.
Qed.

End CountFacts.

(** X3.  The count that accelerator detection returns, requested or detected,
    never exceeds the number of visible devices when the list is present, for
    CUDA and for XPU; a detected count is never negative.  So the accelerator
    count of a resolved declaration is within the visible devices of the
    accelerator in use. *)
Theorem accelerator_count_within_visible (rc : ray_constants) (m : machine)
    (self : ResourceSpec) (is_head : bool) (ip : option string) (s : ResourceSpec) :
  resolve rc m self is_head ip = Return s ->
  exists g,
    num_gpus s = Some g
    /\ (forall ids, get_current_accelerator m = "CUDA" ->
          get_cuda_visible_devices m = Some ids ->
          (value g <= inject_Z (Z.of_nat (length ids)))%Q)
    /\ (forall ids, get_current_accelerator m = "XPU" ->
          get_xpu_visible_devices m = Some ids ->
          (value g <= inject_Z (Z.of_nat (length ids)))%Q)
    /\ (num_gpus self = None -> (0 <= value g)%Q).
Proof.
  intros H. rewrite resolve_unfold in H.
  destruct (resolve_resources m self is_head ip) as [custom|];
    cbn [bind] in H; [|discriminate].
  destruct (resolve_accelerator rc m self custom) as [[gpus custom']|] eqn:Hacc;
    cbn [bind] in H; [|discriminate].
  destruct (resolve_redis_max_memory rc m self) as [redis|];
    cbn [bind] in H; [|discriminate].
  match type of H with context [bind ?c _] => destruct c as [mem|] end;
    cbn [bind] in H; [|discriminate].
  unfold finish in H. destruct gpus as [g|]; [|discriminate].
  injection H as <-. exists g. cbn [num_gpus]. split; [reflexivity|].
  unfold resolve_accelerator in Hacc.
  destruct (String.eqb (get_current_accelerator m) "CUDA") eqn:Ec.
  - destruct (_get_cuda_info rc m (num_gpus self)) as [[k t]|] eqn:E;
      cbn [bind] in Hacc; [|discriminate].
    injection Hacc as <- _.
    destruct (_get_cuda_info_bounds rc m _ _ _ E) as [Hle Hpos].
    apply String.eqb_eq in Ec. repeat split.
    + intros ids _ Hids. exact (Hle ids Hids).
    + intros ids Hx. rewrite Ec in Hx. discriminate Hx.
    + exact Hpos.
  - destruct (String.eqb (get_current_accelerator m) "XPU") eqn:Ex;
      [|discriminate].
    destruct (_get_xpu_info rc m (num_gpus self)) as [[k t]|] eqn:E;
      cbn [bind] in Hacc; [|discriminate].
    injection Hacc as <- _.
    destruct (_get_xpu_info_bounds rc m _ _ _ E) as [Hle Hpos].
    apply String.eqb_neq in Ec. repeat split.
    + intros ids Hc. contradiction.
    + intros ids _ Hids. exact (Hle ids Hids).
    + exact Hpos.
Qed.

(** The Linux node with two visible devices: the empty declaration resolves
    to a count of at most two. *)
Lemma accelerator_count_within_visible_witness :
  let rc := Examples.upstream_constants in
  let m := Examples.linux_node "CUDA" 32000000000 24000000000 16000000000 in
  exists s g,
    resolve rc m Examples.unset false None = Return s
    /\ num_gpus s = Some g
    /\ (value g <= 2)%Q.
Proof.
  intros rc m.
  destruct (resolve rc m Examples.unset false None) as [s|e] eqn:E;
    [|vm_compute in E; discriminate E].
  destruct (accelerator_count_within_visible rc m Examples.unset false None s E)
    as [g [Hg [Hcuda _]]].
  exists s, g. split; [reflexivity|]. split; [exact Hg|].
  exact (Hcuda ["0"; "1"] eq_refl eq_refl).
Defined.

(** ** The model name of a GPU *)

Section PatternFacts.

Lemma span_spec (p : ascii -> bool) (s a b : string) :
  Str.span p s = (a, b) ->
  s = a ++ b
  /\ all_chars p a = true
  /\ (b = EmptyString \/ exists c b', b = String c b' /\ p c = false).
Proof.
  revert a b. induction s as [|c s IH]; cbn [Str.span]; intros a b.
  - intros [= <- <-]. repeat split. left. reflexivity.
  - destruct (p c) eqn:Ep.
    + destruct (Str.span p s) as [a' b'] eqn:Es. intros [= <- <-].
      destruct (IH a' b' eq_refl) as [-> [Ha Hb]].
      cbn [append all_chars]. rewrite Ep, Ha. repeat split. exact Hb.
    + intros [= <- <-]. repeat split. right. eauto.
Qed.

Lemma span_app (p : ascii -> bool) (a b : string) :
  all_chars p a = true ->
  (b = EmptyString \/ exists c b', b = String c b' /\ p c = false) ->
  Str.span p (a ++ b) = (a, b).
Proof.
  intros Ha Hb. induction a as [|c a IH]; cbn [append].
  - destruct Hb as [->|[c [b' [-> Hc]]]]; cbn [Str.span]; [reflexivity|].
    rewrite Hc. reflexivity.
  - cbn [all_chars] in Ha. apply andb_true_iff in Ha as [Hc Ha].
    cbn [Str.span]. rewrite Hc, (IH Ha). reflexivity.
Qed.

Lemma is_empty_false (s : string) : Str.is_empty s = false <-> s <> EmptyString.
Proof.
  destruct s; cbn; split; intros H; try reflexivity; try discriminate.
  exfalso. apply H. reflexivity.
Qed.

Lemma space_not_word (c : ascii) : Str.is_space c = true -> Str.is_word c = false.
Proof.
  destruct c as [[] [] [] [] [] [] [] []]; vm_compute; congruence.
Qed.

Lemma model_not_space (c : ascii) : Str.is_model c = true -> Str.is_space c = false.
Proof.
  destruct c as [[] [] [] [] [] [] [] []]; vm_compute; congruence.
Qed.

(** The first character of a non-empty run with property [p] has it. *)
Lemma all_chars_head (p : ascii -> bool) (s : string) :
  s <> EmptyString -> all_chars p s = true ->
  exists c s', s = String c s' /\ p c = true.
Proof.
  destruct s as [|c s']; [contradiction|]. cbn [all_chars].
  intros _ H. apply andb_true_iff in H as [H _]. eauto.
Qed.

End PatternFacts.

(** When the pattern matches, for the proofs below. *)
Lemma _pretty_gpu_name_match (name g : string) :
  _pretty_gpu_name (Some name) = Some g <->
  exists w sp rest,
    name = w ++ sp ++ g ++ rest
    /\ w <> EmptyString /\ all_chars Str.is_word w = true
    /\ sp <> EmptyString /\ all_chars Str.is_space sp = true
    /\ model_token g
    /\ (rest = EmptyString
        \/ exists c rest', rest = String c rest' /\ Str.is_model c = false).
Proof.
  unfold _pretty_gpu_name, model_token. split.
  - destruct (Str.span Str.is_word name) as [w r1] eqn:E1.
    destruct (Str.is_empty w) eqn:Ew; [discriminate|].
    destruct (Str.span Str.is_space r1) as [sp r2] eqn:E2.
    destruct (Str.is_empty sp) eqn:Esp; [discriminate|].
    destruct (Str.span Str.is_model r2) as [g' rest] eqn:E3.
    destruct (Str.is_empty g') eqn:Eg; [discriminate|].
    intros [= <-].
    apply span_spec in E1 as [-> [Hw _]].
    apply span_spec in E2 as [-> [Hsp _]].
    apply span_spec in E3 as [-> [Hg Hrest]].
    apply is_empty_false in Ew, Esp, Eg.
    exists w, sp, rest. repeat split; assumption.
  - intros [w [sp [rest [-> [Hw [Hw' [Hsp [Hsp' [[Hg Hg'] Hrest]]]]]]]]].
    destruct (all_chars_head _ _ Hsp Hsp') as [c1 [sp1 [Esp Hc1]]].
    destruct (all_chars_head _ _ Hg Hg') as [c2 [g1 [Eg Hc2]]].
    rewrite (span_app Str.is_word w (sp ++ g ++ rest) Hw').
    2:{ right. rewrite Esp. cbn [append]. eexists _, _. split; [reflexivity|].
        apply space_not_word, Hc1. }
    apply is_empty_false in Hw. rewrite Hw.
    rewrite (span_app Str.is_space sp (g ++ rest) Hsp').
    2:{ right. rewrite Eg. cbn [append]. eexists _, _. split; [reflexivity|].
        apply model_not_space, Hc2. }
    apply is_empty_false in Hsp. rewrite Hsp.
    rewrite (span_app Str.is_model g rest Hg' Hrest).
    apply is_empty_false in Hg. rewrite Hg. reflexivity.
Qed.

(** X4.  [_pretty_gpu_name] returns [g] exactly when the name starts with a
    non-empty run of word characters, then a non-empty run of spaces, then
    the non-empty run [g] of upper-case letters and digits, which ends at the
    end of the name or at a character of another kind.  So the result, when
    there is one, is never empty and holds only upper-case letters and
    digits, and a name without a space gives nothing. *)
Theorem _pretty_gpu_name_spec (name g : string) :
  _pretty_gpu_name (Some name) = Some g <->
  exists w sp rest,
    name = w ++ sp ++ g ++ rest
    /\ w <> EmptyString /\ all_chars Str.is_word w = true
    /\ sp <> EmptyString /\ all_chars Str.is_space sp = true
    /\ model_token g
    /\ (rest = EmptyString
        \/ exists c rest', rest = String c rest' /\ Str.is_model c = false).
Proof. exact (_pretty_gpu_name_match name g). Qed.

(** ** Type constraints *)

Section ConstraintFacts.

Variable rc : ray_constants.
Variable m : machine.

(** No constraint, or the one of a model token. *)
Lemma constraint_of_shape (name : option string) :
  constraint_of rc (_pretty_gpu_name name) = []
  \/ exists g, model_token g
               /\ constraint_of rc (_pretty_gpu_name name)
                  = [(RESOURCE_CONSTRAINT_PREFIX rc ++ g, PyInt 1)].
Proof.
  destruct name as [n|]; [|left; reflexivity].
  destruct (_pretty_gpu_name (Some n)) as [g|] eqn:E; [|left; reflexivity].
  apply _pretty_gpu_name_match in E as [w [sp [rest [_ [_ [_ [_ [_ [Hg _]]]]]]]]].
  right. exists g. split; [exact Hg|].
  unfold constraint_of. destruct Hg as [Hne _].
  apply is_empty_false in Hne. rewrite Hne. reflexivity.
Qed.

Lemma detect_gpu_types_shape (t : dict) :
  detect_gpu_types rc m = Return t ->
  t = [] \/ exists g, model_token g
                      /\ t = [(RESOURCE_CONSTRAINT_PREFIX rc ++ g, PyInt 1)].
Proof.
  unfold detect_gpu_types, _get_gpu_types_gputil, _get_gpu_info_string,
    _constraints_from_gpu_info.
  destruct (find_spec_GPUtil m).
  - destruct (GPUtil_getGPUs m) as [names|]; cbn [call bind]; [|discriminate].
    destruct (rev names) as [|info others]; intros [= <-]; [left; reflexivity|].
    exact (constraint_of_shape (Some info)).
  - destruct (Str.startswith (platform m) "linux").
    + destruct (proc_gpus m) as [[[|d ds]|f]|]; cbn [call bind];
        try discriminate; try (intros [= <-]; left; reflexivity).
      destruct (read_information m d) as [info|]; cbn [call bind]; [|discriminate].
      intros [= <-].
      exact (constraint_of_shape
               (full_model_name (Str.split (ascii_of_nat 10) info))).
    + cbn [bind]. intros [= <-]. left. reflexivity.
Qed.

End ConstraintFacts.

(** The shape of the type constraints, for the proofs below. *)
Lemma type_constraints_shape_aux (rc : ray_constants) (m : machine) :
  (forall info,
     _constraints_from_gpu_info rc info = []
     \/ exists g, model_token g
                  /\ _constraints_from_gpu_info rc info
                     = [(RESOURCE_CONSTRAINT_PREFIX rc ++ g, PyInt 1)])
  /\ (forall n k types,
        _get_cuda_info rc m n = Return (k, types) ->
        types = []
        \/ exists g, model_token g
                     /\ types = [(RESOURCE_CONSTRAINT_PREFIX rc ++ g, PyInt 1)])
  /\ (forall n k types,
        _get_xpu_info rc m n = Return (k, types) ->
        types = [(RESOURCE_CONSTRAINT_PREFIX rc ++ "xpu", PyInt 1)]).
Proof.
  split; [|split].
  - intros [info|]; [|left; reflexivity].
    exact (constraint_of_shape rc
             (full_model_name (Str.split (ascii_of_nat 10) info))).
  - intros n k types. unfold _get_cuda_info.
    destruct (exceeds_visible n (get_cuda_visible_devices m)); [discriminate|].
    match goal with |- context [bind ?x _] => destruct x end;
      cbn [bind]; [|discriminate].
    intros [= _ <-]. unfold try_except.
    destruct (detect_gpu_types rc m) as [t|] eqn:E; [|left; reflexivity].
    exact (detect_gpu_types_shape rc m t E).
  - intros n k types. unfold _get_xpu_info.
    destruct (exceeds_visible n (get_xpu_visible_devices m)); [discriminate|].
    match goal with |- context [bind ?x _] => destruct x end;
      cbn [bind]; [|discriminate].
    intros [= _ <-]. reflexivity.
Qed.

(** X5.  The type constraints of the CUDA family are empty or one entry of
    value [1] whose key is [RESOURCE_CONSTRAINT_PREFIX] followed by a model
    token, whether they come from a driver information file or from what
    [_get_cuda_info] returns; those of the XPU family are always the one
    entry [RESOURCE_CONSTRAINT_PREFIX ++ "xpu"]. *)
Theorem type_constraints_shape (rc : ray_constants) (m : machine) :
  (forall info,
     _constraints_from_gpu_info rc info = []
     \/ exists g, model_token g
                  /\ _constraints_from_gpu_info rc info
                     = [(RESOURCE_CONSTRAINT_PREFIX rc ++ g, PyInt 1)])
  /\ (forall n k types,
        _get_cuda_info rc m n = Return (k, types) ->
        types = []
        \/ exists g, model_token g
                     /\ types = [(RESOURCE_CONSTRAINT_PREFIX rc ++ g, PyInt 1)])
  /\ (forall n k types,
        _get_xpu_info rc m n = Return (k, types) ->
        types = [(RESOURCE_CONSTRAINT_PREFIX rc ++ "xpu", PyInt 1)]).
Proof. exact (type_constraints_shape_aux rc m). Qed.

(** The Linux node, whose information file names a Tesla V100. *)
Lemma type_constraints_shape_witness :
  let rc := Examples.upstream_constants in
  let m := Examples.linux_node "CUDA" 32000000000 24000000000 16000000000 in
  _get_cuda_info rc m None = Return (PyInt 1, [("accelerator_type:V100", PyInt 1)])
  /\ ([("accelerator_type:V100", PyInt 1)] = []
      \/ exists g, model_token g
                   /\ [("accelerator_type:V100", PyInt 1)]
                      = [(RESOURCE_CONSTRAINT_PREFIX rc ++ g, PyInt 1)]).
Proof.
  intros rc m. split; [reflexivity|].
  exact (proj1 (proj2 (type_constraints_shape rc m)) None (PyInt 1)
           [("accelerator_type:V100", PyInt 1)] eq_refl).
Defined.

(** ** The custom resources of a resolved declaration *)

Section CustomFacts.

Variable rc : ray_constants.
Variable m : machine.

Lemma get_update_other (e d : dict) (k : string) :
  (forall k' v, In (k', v) e -> k' <> k) ->
  get (update d e) k = get d k.
Proof.
  unfold update. revert d.
  induction e as [|[k' v] e IH]; intros d He; cbn [fold_left fst snd].
  - reflexivity.
  - rewrite IH.
    + apply get_set_other. intros Heq.
      apply (He k' v); [left; reflexivity|symmetry; exact Heq].
    + intros k0 v0 Hin. apply (He k0 v0). right. exact Hin.
Qed.

Lemma prefix_append (a b : string) : String.prefix a (a ++ b) = true.
Proof.
  induction a as [|c a IH]; cbn [append String.prefix].
  - destruct b; reflexivity.
  - destruct (ascii_dec c c) as [_|Hne]; [exact IH|contradiction].
Qed.

Lemma last_char_append (a b : string) :
  b <> EmptyString -> last_char (a ++ b) = last_char b.
Proof.
  intros Hb. induction a as [|c a IH]; cbn [append]; [reflexivity|].
  destruct (a ++ b) as [|c' r] eqn:E.
  - destruct a; cbn [append] in E; [contradiction|discriminate].
  - cbn [last_char]. exact IH.
Qed.

Lemma last_char_all (p : ascii -> bool) (g : string) :
  g <> EmptyString -> all_chars p g = true ->
  exists c, last_char g = Some c /\ p c = true.
Proof.
  induction g as [|c g IH]; [contradiction|].
  intros _ H. cbn [all_chars] in H. apply andb_true_iff in H as [Hc Hg].
  destruct g as [|c' g'].
  - exists c. split; [reflexivity|exact Hc].
  - destruct IH as [c0 [H0 Hp]]; [discriminate|exact Hg|].
    exists c0. split; [exact H0|exact Hp].
Qed.

(** The keys that the accelerator stage writes start with the constraint
    prefix, and none of them is the head node resource name. *)
Lemma resolve_accelerator_frame self custom gpus custom' :
  resolve_accelerator rc m self custom = Return (gpus, custom') ->
  exists types,
    custom' = update custom types
    /\ forall k v, In (k, v) types ->
         String.prefix (RESOURCE_CONSTRAINT_PREFIX rc) k = true
         /\ k <> HEAD_NODE_RESOURCE_NAME.
Proof.
  unfold resolve_accelerator.
  destruct (String.eqb (get_current_accelerator m) "CUDA").
  - destruct (_get_cuda_info rc m (num_gpus self)) as [[n t]|] eqn:E;
      cbn [bind]; [|discriminate].
    intros [= _ <-]. exists t. split; [reflexivity|].
    destruct (proj1 (proj2 (type_constraints_shape_aux rc m)) _ _ _ E)
      as [->|[g [[Hne Hg] ->]]]; [intros k v []|].
    intros k v [[= <- _]|[]]. split; [apply prefix_append|].
    intros Heq. apply (f_equal last_char) in Heq.
    rewrite (last_char_append _ g Hne) in Heq.
    destruct (last_char_all _ g Hne Hg) as [c [Hc Hm]].
    rewrite Hc in Heq. vm_compute in Heq. injection Heq as ->.
    vm_compute in Hm. discriminate Hm.
  - destruct (String.eqb (get_current_accelerator m) "XPU").
    + destruct (_get_xpu_info rc m (num_gpus self)) as [[n t]|] eqn:E;
        cbn [bind]; [|discriminate].
      intros [= _ <-]. exists t. split; [reflexivity|].
      rewrite (proj2 (proj2 (type_constraints_shape_aux rc m)) _ _ _ E).
      intros k v [[= <- _]|[]]. split; [apply prefix_append|].
      intros Heq. apply (f_equal last_char) in Heq.
      rewrite (last_char_append _ "xpu") in Heq by discriminate.
      vm_compute in Heq. discriminate Heq.
    + intros [= _ <-]. exists []. split; [reflexivity|]. intros k v [].
Qed.

End CustomFacts.

Section ResolvedCustomFacts.

Variable rc : ray_constants.
Variable m : machine.

(** What [resolve_resources] returns. *)
Lemma resolve_resources_return self is_head ip custom :
  resolve_resources m self is_head ip = Return custom ->
  let given := match resources self with Some d => d | None => [] end in
  let addr := match ip with Some a => a | None => get_node_ip_address m end in
  let with_node := set given (NODE_ID_PREFIX ++ addr) f_1_0 in
  (mem "CPU" given = false /\ mem "GPU" given = false
   /\ mem "memory" given = false /\ mem "object_store_memory" given = false)
  /\ mem HEAD_NODE_RESOURCE_NAME with_node = false
  /\ custom = if is_head then set with_node HEAD_NODE_RESOURCE_NAME f_1_0
              else with_node.
Proof.
  intros H given addr with_node. unfold resolve_resources in H.
  fold given in H. fold addr in H. fold with_node in H.
  destruct (mem "CPU" given); cbn [negb assert bind] in H; [discriminate|].
  destruct (mem "GPU" given); cbn [negb assert bind] in H; [discriminate|].
  destruct (mem "memory" given); cbn [negb assert bind] in H; [discriminate|].
  destruct (mem "object_store_memory" given); cbn [negb assert bind] in H;
    [discriminate|].
  destruct (mem HEAD_NODE_RESOURCE_NAME with_node); [discriminate|].
  injection H as <-. repeat split.
Qed.

(** The custom resources of a returned declaration: those of
    [resolve_resources], updated with the type constraints. *)
Lemma resolve_returns_custom self is_head ip s :
  resolve rc m self is_head ip = Return s ->
  exists custom types,
    resolve_resources m self is_head ip = Return custom
    /\ resources s = Some (update custom types)
    /\ forall k v, In (k, v) types ->
         String.prefix (RESOURCE_CONSTRAINT_PREFIX rc) k = true
         /\ k <> HEAD_NODE_RESOURCE_NAME.
Proof.
  intros H. rewrite resolve_unfold in H.
  destruct (resolve_resources m self is_head ip) as [custom|];
    cbn [bind] in H; [|discriminate].
  destruct (resolve_accelerator rc m self custom) as [[gpus custom']|] eqn:Hacc;
    cbn [bind] in H; [|discriminate].
  destruct (resolve_redis_max_memory rc m self) as [redis|];
    cbn [bind] in H; [|discriminate].
  match type of H with context [bind ?c _] => destruct c as [mem0|] end;
    cbn [bind] in H; [|discriminate].
  unfold finish in H. destruct gpus as [g|]; [|discriminate].
  injection H as <-. cbn [resources].
  destruct (resolve_accelerator_frame rc m self custom _ _ Hacc)
    as [types [-> Htypes]].
  exists custom, types. repeat split; try reflexivity; apply (Htypes k v H).
Qed.

Lemma mem_update (d e : dict) (k : string) :
  mem k d = true -> mem k (update d e) = true.
Proof.
  unfold mem. intros H.
  destruct (get_update_keeps (fun _ => True) e d k) as [w [Hw _]].
  - intros. exact I.
  - destruct (get d k) as [w|]; [|discriminate]. exists w. split; [reflexivity|exact I].
  - rewrite Hw. reflexivity.
Qed.

Lemma prefix_node_key (addr : string) :
  String.prefix NODE_ID_PREFIX (NODE_ID_PREFIX ++ addr) = true.
Proof. apply prefix_append. Qed.

(** The head node resource is in a returned declaration exactly on the head
    node. *)
Lemma resolve_head_resource_aux self is_head ip s :
  resolve rc m self is_head ip = Return s ->
  exists d,
    resources s = Some d
    /\ (is_head = true ->
        exists w, get d HEAD_NODE_RESOURCE_NAME = Some w /\ (value w == 1)%Q)
    /\ (is_head = false -> mem HEAD_NODE_RESOURCE_NAME d = false).
Proof.
  intros H.
  destruct (resolve_returns_custom self is_head ip s H)
    as [custom [types [Hres [Hs Htypes]]]].
  apply resolve_resources_return in Hres as [_ [Hhead ->]].
  eexists. split; [exact Hs|].
  assert (Hother : forall d0, get (update d0 types) HEAD_NODE_RESOURCE_NAME
                              = get d0 HEAD_NODE_RESOURCE_NAME).
  { intros d0. apply get_update_other. intros k v Hin. apply (Htypes k v Hin). }
  split; intros ->.
  - exists f_1_0. rewrite Hother, get_set_same. split; reflexivity.
  - unfold mem in *. rewrite Hother. exact Hhead.
Qed.

End ResolvedCustomFacts.

(** X6.  A declaration returned for the head node maps the head node
    resource name to a value equal to [1.0]; one returned for another node
    does not hold that name at all, whatever accelerator types were
    detected. *)
Theorem resolve_head_resource (rc : ray_constants) (m : machine)
    (self : ResourceSpec) (is_head : bool) (ip : option string) (s : ResourceSpec) :
  resolve rc m self is_head ip = Return s ->
  exists d,
    resources s = Some d
    /\ (is_head = true ->
        exists w, get d HEAD_NODE_RESOURCE_NAME = Some w /\ (value w == 1)%Q)
    /\ (is_head = false -> mem HEAD_NODE_RESOURCE_NAME d = false).
Proof. exact (resolve_head_resource_aux rc m self is_head ip s). Qed.

(** The 32 GB node resolved as a worker: no head node resource. *)
Lemma resolve_head_resource_witness :
  let rc := Examples.upstream_constants in
  let m := Examples.linux_node "CUDA" 32000000000 24000000000 16000000000 in
  exists s d,
    resolve rc m Examples.unset false None = Return s
    /\ resources s = Some d
    /\ mem HEAD_NODE_RESOURCE_NAME d = false.
Proof.
  intros rc m.
  destruct (resolve rc m Examples.unset false None) as [s|e] eqn:E;
    [|vm_compute in E; discriminate E].
  destruct (resolve_head_resource rc m Examples.unset false None s E)
    as [d [Hd [_ Hno]]].
  exists s, d. split; [reflexivity|]. split; [exact Hd|]. apply Hno. reflexivity.
Defined.

(** X7.  [resolve] changes the custom resources only at keys that start with
    [node:] or with [RESOURCE_CONSTRAINT_PREFIX]: every other key has in the
    returned declaration the value the caller gave it, or none if the
    caller gave none.  No key of the caller is dropped. *)
Theorem resolve_custom_frame (rc : ray_constants) (m : machine)
    (self : ResourceSpec) (is_head : bool) (ip : option string) (s : ResourceSpec) :
  resolve rc m self is_head ip = Return s ->
  let given := match resources self with Some d => d | None => [] end in
  exists d,
    resources s = Some d
    /\ (forall k,
          String.prefix NODE_ID_PREFIX k = false ->
          String.prefix (RESOURCE_CONSTRAINT_PREFIX rc) k = false ->
          get d k = get given k)
    /\ (forall k, mem k given = true -> mem k d = true).
Proof.
  intros H given.
  destruct (resolve_returns_custom rc m self is_head ip s H)
    as [custom [types [Hres [Hs Htypes]]]].
  apply resolve_resources_return in Hres as [_ [_ ->]]. fold given.
  eexists. split; [exact Hs|]. split.
  - intros k Hnode Hprefix.
    rewrite get_update_other.
    2:{ intros k' v Hin ->. destruct (Htypes k v Hin) as [Hp _]. congruence. }
    assert (Hk : forall addr, k <> NODE_ID_PREFIX ++ addr).
    { intros addr ->. rewrite prefix_node_key in Hnode. discriminate. }
    destruct is_head.
    + rewrite get_set_other by apply (Hk "__internal_head__").
      apply get_set_other, Hk.
    + apply get_set_other, Hk.
  - intros k Hk. apply mem_update.
    destruct is_head; repeat apply mem_set; exact Hk.
Qed.

(** A custom resource [special_hardware] on the head node: kept, with its
    value. *)
Lemma resolve_custom_frame_witness :
  let rc := Examples.upstream_constants in
  let m := Examples.linux_node "CUDA" 32000000000 24000000000 16000000000 in
  let self := mkResourceSpec None None None None
                (Some [("special_hardware", PyInt 3)]) None in
  exists s d,
    resolve rc m self true None = Return s
    /\ resources s = Some d
    /\ get d "special_hardware" = Some (PyInt 3).
Proof.
  intros rc m self.
  destruct (resolve rc m self true None) as [s|e] eqn:E;
    [|vm_compute in E; discriminate E].
  destruct (resolve_custom_frame rc m self true None s E) as [d [Hd [Hsame _]]].
  exists s, d. split; [reflexivity|]. split; [exact Hd|].
  rewrite (Hsame "special_hardware"); reflexivity.
Defined.

(** ** Resolving twice *)

Lemma resolve_resources_with_head (m : machine) (self : ResourceSpec)
    (is_head : bool) (ip : option string) (custom : dict) :
  resources self = Some custom ->
  mem HEAD_NODE_RESOURCE_NAME custom = true ->
  exists e, resolve_resources m self is_head ip = Raise e
            /\ reserved_name_error e = true.
Proof.
  intros Hres Hhead. unfold resolve_resources. rewrite Hres.
  destruct (mem "CPU" custom); cbn [negb assert bind];
    [eexists; split; reflexivity|].
  destruct (mem "GPU" custom); cbn [negb assert bind];
    [eexists; split; reflexivity|].
  destruct (mem "memory" custom); cbn [negb assert bind];
    [eexists; split; reflexivity|].
  destruct (mem "object_store_memory" custom); cbn [negb assert bind];
    [eexists; split; reflexivity|].
  rewrite (mem_set _ _ _ _ Hhead). eexists. split; reflexivity.
Qed.

(** X8.  A declaration that [resolve] returned for the head node cannot be
    resolved again: it holds the head node resource name, and a second
    [resolve], as head or not, on any machine and for any address, raises a
    reserved name error. *)
Theorem resolve_again_on_head (rc : ray_constants) (m : machine)
    (self : ResourceSpec) (ip : option string) (s : ResourceSpec) :
  resolve rc m self true ip = Return s ->
  forall (rc' : ray_constants) (m' : machine) (is_head' : bool) (ip' : option string),
  exists e,
    resolve rc' m' s is_head' ip' = Raise e
    /\ reserved_name_error e = true.
Proof.
  intros H rc' m' is_head' ip'.
  destruct (resolve_head_resource_aux rc m self true ip s H) as [d [Hd [Hhead _]]].
  destruct (Hhead eq_refl) as [w [Hw _]].
  destruct (resolve_resources_with_head m' s is_head' ip' d Hd) as [e [He Hr]].
  - unfold mem. rewrite Hw. reflexivity.
  - exists e. split; [|exact Hr]. rewrite resolve_unfold, He. reflexivity.
Qed.

(** The head node resolved from the empty declaration, then resolved again
    as a worker. *)
Lemma resolve_again_on_head_witness :
  let rc := Examples.upstream_constants in
  let m := Examples.linux_node "CUDA" 32000000000 24000000000 16000000000 in
  exists s e,
    resolve rc m Examples.unset true None = Return s
    /\ resolve rc m s false None = Raise e
    /\ reserved_name_error e = true.
Proof.
  intros rc m.
  destruct (resolve rc m Examples.unset true None) as [s|e0] eqn:E;
    [|vm_compute in E; discriminate E].
  destruct (resolve_again_on_head rc m Examples.unset None s E rc m false None)
    as [e [He Hr]].
  exists s, e. split; [reflexivity|]. split; assumption.
Defined.

(** ** Bounds of the defaults *)

Section DefaultBounds.

Variable rc : ray_constants.
Variable m : machine.

Local Open Scope Q_scope.

Lemma default_redis_bounds :
  value (REDIS_MINIMUM_MEMORY_BYTES rc) <= value (DEFAULT_REDIS_MAX_MEMORY_BYTES rc) ->
  value (REDIS_MINIMUM_MEMORY_BYTES rc) <= value (default_redis_max_memory rc m)
  /\ value (default_redis_max_memory rc m) <= value (DEFAULT_REDIS_MAX_MEMORY_BYTES rc).
Proof.
  intros Hc. rewrite value_default_redis_max_memory. split.
  - apply Q.min_glb; [exact Hc|]. apply Q.le_max_r.
  - apply Q.le_min_l.
Qed.

End DefaultBounds.

(** X9.  When the constants put the redis minimum at or below the default
    redis cap, the default redis cap lies between the two, so a declaration
    that leaves [redis_max_memory] unset never meets the redis minimum
    error: the error is reserved to explicit values. *)
Theorem resolve_default_redis_accepted (rc : ray_constants) (m : machine)
    (self : ResourceSpec) (is_head : bool) (ip : option string) :
  (value (REDIS_MINIMUM_MEMORY_BYTES rc)
   <= value (DEFAULT_REDIS_MAX_MEMORY_BYTES rc))%Q ->
  redis_max_memory self = None ->
  (value (REDIS_MINIMUM_MEMORY_BYTES rc) <= value (default_redis_max_memory rc m)
   /\ value (default_redis_max_memory rc m)
      <= value (DEFAULT_REDIS_MAX_MEMORY_BYTES rc))%Q
  /\ resolve rc m self is_head ip <> Raise (ValueError RedisMemoryBelowMinimum)
  /\ (forall s, resolve rc m self is_head ip = Return s ->
        redis_max_memory s = Some (default_redis_max_memory rc m)).
Proof.
  intros Hc Hnone.
  destruct (default_redis_bounds rc m Hc) as [Hlo Hhi].
  assert (Hredis : resolve_redis_max_memory rc m self
                   = Return (default_redis_max_memory rc m)).
  { unfold resolve_redis_max_memory. rewrite Hnone.
    apply ltb_ge in Hlo. rewrite Hlo. reflexivity. }
  split; [split; assumption|].
  rewrite resolve_unfold.
  destruct (resolve_resources m self is_head ip) as [custom|e] eqn:Hres;
    cbn [bind].
  2:{ apply resolve_resources_raise in Hres. split; [|discriminate].
      intros [= ->]. discriminate Hres. }
  destruct (resolve_accelerator rc m self custom) as [[gpus custom']|e] eqn:Hacc;
    cbn [bind].
  2:{ apply resolve_accelerator_raise in Hacc. split; [|discriminate].
      intros [= ->]. destruct Hacc as [[v Hv]|[f Hf]]; discriminate. }
  rewrite Hredis. cbn [bind].
  match goal with |- context [bind ?c _] => destruct c as [mem0|e] eqn:Hmem end;
    cbn [bind].
  2:{ apply resolve_memory_raise in Hmem. subst e. split; discriminate. }
  unfold finish. destruct gpus; split; try discriminate.
  intros s [= <-]. reflexivity.
Qed.

(** The upstream constants: a minimum of 10 MB under a default cap of 10 GB.
    On the 32 GB node the default is 2.4 GB. *)
Lemma resolve_default_redis_accepted_witness :
  let rc := Examples.upstream_constants in
  let m := Examples.linux_node "CUDA" 32000000000 24000000000 16000000000 in
  exists s,
    resolve rc m Examples.unset true None = Return s
    /\ redis_max_memory s = Some (PyInt 2400000000).
Proof.
  intros rc m.
  destruct (resolve rc m Examples.unset true None) as [s|e] eqn:E;
    [|vm_compute in E; discriminate E].
  exists s. split; [reflexivity|].
  refine (proj2 (proj2 (resolve_default_redis_accepted rc m Examples.unset true None
                          _ eq_refl)) s E).
  vm_compute. intros H. discriminate H.
Defined.

(** X10.  When [object_store_memory] is unset, the value in a returned
    declaration is at most the absolute cap, at most the proportion of the
    available memory, and on [darwin] at most the Mac limit.  On Linux the
    cap does not go below the shared memory threshold, as long as the
    threshold itself is within the absolute cap. *)
Theorem resolve_default_object_store_bounds (rc : ray_constants) (m : machine)
    (self : ResourceSpec) (is_head : bool) (ip : option string) (s : ResourceSpec) :
  object_store_memory self = None ->
  resolve rc m self is_head ip = Return s ->
  exists o,
    object_store_memory s = Some o
    /\ (value o <= value (DEFAULT_OBJECT_STORE_MAX_MEMORY_BYTES rc))%Q
    /\ (value o <= inject_Z (int (mul (PyInt (estimate_available_memory m))
                                    (DEFAULT_OBJECT_STORE_MEMORY_PROPORTION rc))))%Q
    /\ (platform m = "darwin" ->
        (value o <= value (MAC_DEGRADED_PERF_MMAP_SIZE_LIMIT rc))%Q)
    /\ (platform m = "linux" \/ platform m = "linux2" ->
        (value (REQUIRE_SHM_SIZE_THRESHOLD rc)
         <= value (DEFAULT_OBJECT_STORE_MAX_MEMORY_BYTES rc))%Q ->
        (value (REQUIRE_SHM_SIZE_THRESHOLD rc) <= value (object_store_max_cap rc m))%Q).
Proof.
  intros Hnone H. rewrite resolve_unfold in H.
  destruct (resolve_resources m self is_head ip) as [custom|];
    cbn [bind] in H; [|discriminate].
  destruct (resolve_accelerator rc m self custom) as [[gpus custom']|];
    cbn [bind] in H; [|discriminate].
  destruct (resolve_redis_max_memory rc m self) as [redis|];
    cbn [bind] in H; [|discriminate].
  rewrite Hnone in H.
  match type of H with context [bind ?c _] => destruct c as [mem0|] end;
    cbn [bind] in H; [|discriminate].
  unfold finish in H. destruct gpus as [g|]; [|discriminate].
  injection H as <-. cbn [object_store_memory].
  exists (default_object_store_memory rc m). split; [reflexivity|].
  pose proof (value_default_object_store_memory rc m) as Hd.
  pose proof (value_object_store_max_cap rc m) as Hcap.
  pose proof (value_proportional_object_store_memory rc m) as Hprop.
  cbv zeta in Hprop.
  assert (Hle_prop : (value (default_object_store_memory rc m)
                      <= value (proportional_object_store_memory rc m))%Q).
  { rewrite Hd. apply Q.le_min_l. }
  assert (Hle_cap : (value (default_object_store_memory rc m)
                     <= value (object_store_max_cap rc m))%Q).
  { rewrite Hd. apply Q.le_min_r. }
  repeat split.
  - eapply Qle_trans; [exact Hle_cap|]. rewrite Hcap.
    destruct (String.eqb (platform m) "linux" || String.eqb (platform m) "linux2")%bool;
      [apply Q.le_min_r|apply Qle_refl].
  - eapply Qle_trans; [exact Hle_prop|]. rewrite Hprop.
    destruct (String.eqb (platform m) "darwin"); [apply Q.le_min_l|apply Qle_refl].
  - intros Hmac. eapply Qle_trans; [exact Hle_prop|]. rewrite Hprop.
    apply String.eqb_eq in Hmac. rewrite Hmac. apply Q.le_min_r.
  - intros Hlinux Hc. rewrite Hcap.
    assert (E : (String.eqb (platform m) "linux"
                 || String.eqb (platform m) "linux2")%bool = true).
    { apply orb_true_iff. destruct Hlinux as [->| ->]; [left|right]; reflexivity. }
    rewrite E. apply Q.min_glb; [apply Q.le_max_l|exact Hc].
Qed.

(** The 64 GB Linux node with 2 GB of shared memory: the object store is
    within the absolute cap of 200 GB. *)
Lemma resolve_default_object_store_bounds_witness :
  let rc := Examples.upstream_constants in
  let m := Examples.linux_node "CUDA" 64000000000 40000000000 2000000000 in
  exists s o,
    resolve rc m Examples.unset false None = Return s
    /\ object_store_memory s = Some o
    /\ (value o <= 200000000000 # 1)%Q.
Proof.
  intros rc m.
  destruct (resolve rc m Examples.unset false None) as [s|e] eqn:E;
    [|vm_compute in E; discriminate E].
  destruct (resolve_default_object_store_bounds rc m Examples.unset false None s
              eq_refl E) as [o [Ho [Hmax _]]].
  exists s, o. split; [reflexivity|]. split; [exact Ho|exact Hmax].
Defined.

(** ** Looking up the resource dictionary *)

Section LookupFacts.

Lemma get_notin (d : dict) (k : string) :
  ~ In k (keys d) -> get d k = None.
Proof.
  induction d as [|[k0 v0] d IH]; cbn [keys map fst get]; intros H; [reflexivity|].
  destruct (String.eqb k k0) eqn:E.
  - apply String.eqb_eq in E. exfalso. apply H. left. symmetry. exact E.
  - apply IH. intros Hin. apply H. right. exact Hin.
Qed.

Lemma get_In (d : dict) (k : string) (v : number) :
  get d k = Some v -> In (k, v) d.
Proof.
  induction d as [|[k0 v0] d IH]; cbn [get]; [discriminate|].
  destruct (String.eqb k k0) eqn:E.
  - apply String.eqb_eq in E. intros [= <-]. left. congruence.
  - intros H. right. exact (IH H).
Qed.

Lemma In_set_other (d : dict) (k k' : string) (v v' : number) :
  k <> k' -> In (k, v) d -> In (k, v) (set d k' v').
Proof.
  intros Hne. induction d as [|[k0 v0] d IH]; cbn [set]; [intros []|].
  destruct (String.eqb k' k0) eqn:E; intros [H|H].
  - injection H as -> ->. apply String.eqb_eq in E. congruence.
  - right. exact H.
  - left. exact H.
  - right. exact (IH H).
Qed.

Lemma keys_set (d : dict) (k : string) (v : number) (k' : string) :
  In k' (keys (set d k v)) -> k' = k \/ In k' (keys d).
Proof.
  induction d as [|[k0 v0] d IH]; cbn [set keys map fst].
  - intros [<-|[]]. left. reflexivity.
  - destruct (String.eqb k k0); cbn [map fst].
    + intros H. right. exact H.
    + intros [<-|H]; [right; left; reflexivity|].
      destruct (IH H) as [->|Hin]; [left; reflexivity|right; right; exact Hin].
Qed.

Lemma NoDup_set (d : dict) (k : string) (v : number) :
  NoDup (keys d) -> NoDup (keys (set d k v)).
Proof.
  induction d as [|[k0 v0] d IH]; cbn [set keys map fst]; intros H.
  - constructor; [intros []|constructor].
  - inversion H as [|? ? Hnot Hnd]; subst.
    destruct (String.eqb k k0) eqn:E; cbn [map fst].
    + constructor; assumption.
    + constructor; [|exact (IH Hnd)].
      intros Hin. destruct (keys_set d k v k0 Hin) as [->|Hin'].
      * rewrite String.eqb_refl in E. discriminate.
      * contradiction.
Qed.

Lemma keys_drop_zero (d : dict) (k : string) :
  In k (keys (drop_zero d)) -> In k (keys d).
Proof.
  unfold keys, drop_zero. rewrite !in_map_iff.
  intros [kv [Hk Hin]]. apply filter_In in Hin as [Hin _]. eauto.
Qed.

Lemma get_drop_zero (d : dict) (k : string) :
  NoDup (keys d) -> get (drop_zero d) k = kept (get d k).
Proof.
  induction d as [|[k0 v0] d IH]; intros H; [reflexivity|].
  cbn [keys map fst] in H. inversion H as [|? ? Hnot Hnd]; subst.
  cbn [drop_zero filter snd get].
  fold (drop_zero d).
  destruct (String.eqb k k0) eqn:E.
  - cbn [kept]. destruct (neqb v0 (PyInt 0)); cbn [get].
    + rewrite E. reflexivity.
    + apply String.eqb_eq in E. subst k0.
      apply get_notin. intros Hin. apply Hnot. apply keys_drop_zero, Hin.
  - destruct (neqb v0 (PyInt 0)); cbn [get]; [rewrite E|]; apply IH, Hnd.
Qed.

End LookupFacts.

(** X11.  For a resolved declaration whose custom resources are a dictionary
    (distinct keys), the mapping that [to_resource_dict] returns renames the
    fields: [CPU] and [GPU] hold the two counts, [memory] and
    [object_store_memory] the two sizes converted by [int], each one absent
    when it is zero; a custom resource of one of these four names is
    overridden by the field, and every other key holds the caller's value,
    or nothing when that value is zero. *)
Theorem to_resource_dict_lookup (rc : ray_constants)
    (cpus gpus mem osm redis : number) (custom d : dict) :
  NoDup (keys custom) ->
  to_resource_dict rc (mkResourceSpec (Some cpus) (Some gpus) (Some mem) (Some osm)
                         (Some custom) (Some redis)) = Return d ->
  get d "CPU" = kept (Some cpus)
  /\ get d "GPU" = kept (Some gpus)
  /\ get d "memory" = kept (Some (PyInt (int mem)))
  /\ get d "object_store_memory" = kept (Some (PyInt (int osm)))
  /\ (forall k, k <> "CPU" -> k <> "GPU" -> k <> "memory" ->
        k <> "object_store_memory" -> get d k = kept (get custom k)).
Proof.
  intros Hnd H. unfold to_resource_dict in H.
  cbn [resolved num_cpus num_gpus memory object_store_memory resources
         redis_max_memory is_some andb assert bind] in H.
  destruct (check_quantities rc _); cbn [bind] in H; [|discriminate].
  injection H as <-.
  assert (Hm : NoDup (keys (merged_resources custom cpus gpus mem osm))).
  { unfold merged_resources. repeat apply NoDup_set. exact Hnd. }
  rewrite !(get_drop_zero _ _ Hm). unfold merged_resources.
  repeat split.
  - rewrite !get_set_other by discriminate. rewrite get_set_same. reflexivity.
  - rewrite !get_set_other by discriminate. rewrite get_set_same. reflexivity.
  - rewrite get_set_other by discriminate. rewrite get_set_same. reflexivity.
  - rewrite get_set_same. reflexivity.
  - intros k H1 H2 H3 H4. rewrite (get_drop_zero _ _ Hm). unfold merged_resources.
    rewrite !get_set_other by assumption. reflexivity.
Qed.

(** A declaration with no GPU and a custom resource: the GPU entry is absent,
    the custom one is kept. *)
Lemma to_resource_dict_lookup_witness :
  let rc := Examples.upstream_constants in
  let custom := [("special_hardware", PyInt 3)] in
  let self := mkResourceSpec (Some (PyInt 8)) (Some (PyInt 0))
                (Some (PyFloat (2001 # 2))) (Some (PyInt 500)) (Some custom)
                (Some (PyInt 10000000)) in
  exists d,
    to_resource_dict rc self = Return d
    /\ get d "GPU" = None
    /\ get d "memory" = Some (PyInt 1000)
    /\ get d "special_hardware" = Some (PyInt 3).
Proof.
  intros rc custom self.
  assert (Hnd : NoDup (keys custom)).
  { constructor; [intros []|constructor]. }
  destruct (to_resource_dict rc self) as [d|e] eqn:E;
    [|vm_compute in E; discriminate E].
  destruct (to_resource_dict_lookup rc (PyInt 8) (PyInt 0) (PyFloat (2001 # 2))
              (PyInt 500) (PyInt 10000000) custom d Hnd E)
    as [_ [Hg [Hm [_ Hc]]]].
  exists d. split; [reflexivity|]. split; [exact Hg|]. split; [exact Hm|].
  apply (Hc "special_hardware"); discriminate.
Defined.

(** When [to_resource_dict] fails its assertion on [resolved]. *)
Lemma to_resource_dict_unresolved_aux (rc : ray_constants) (self : ResourceSpec) :
  to_resource_dict rc self = Raise (AssertionError Resolved)
  <-> resolved self = false.
Proof.
  unfold to_resource_dict.
  destruct self as [[cpus|] [gpus|] [mem|] [osm|] [custom|] [redis|]];
    cbn [resolved num_cpus num_gpus memory object_store_memory resources
           redis_max_memory is_some andb assert bind];
    try (split; reflexivity).
  destruct (check_quantities_total rc
              (drop_zero (merged_resources custom cpus gpus mem osm)))
    as [E|[e E]]; rewrite E; cbn [bind].
  - split; discriminate.
  - destruct (check_quantities_raise rc _ e E) as [err [k [v [-> _]]]].
    split; discriminate.
Qed.

(** X13.  The node id resource reaches the scheduler: when [resolve] returns
    a declaration and [to_resource_dict] returns its mapping, the mapping
    holds [node:<address>] with a value equal to [1.0]; and
    [to_resource_dict] never fails its assertion on what [resolve]
    returned. *)
Theorem resolve_then_to_resource_dict (rc : ray_constants) (m : machine)
    (self : ResourceSpec) (is_head : bool) (ip : option string) (s : ResourceSpec) :
  resolve rc m self is_head ip = Return s ->
  let addr := match ip with Some a => a | None => get_node_ip_address m end in
  to_resource_dict rc s <> Raise (AssertionError Resolved)
  /\ (forall d, to_resource_dict rc s = Return d ->
        exists v, In (NODE_ID_PREFIX ++ addr, v) d /\ (value v == 1)%Q).
Proof.
  intros H addr.
  assert (Hnode : exists custom' w,
             resources s = Some custom'
             /\ get custom' (NODE_ID_PREFIX ++ addr) = Some w /\ one w
             /\ resolved s = true).
  { rewrite resolve_unfold in H.
    destruct (resolve_resources m self is_head ip) as [custom|] eqn:Hres;
      cbn [bind] in H; [|discriminate].
    destruct (resolve_accelerator rc m self custom) as [[gpus custom']|] eqn:Hacc;
      cbn [bind] in H; [|discriminate].
    destruct (resolve_redis_max_memory rc m self) as [redis|];
      cbn [bind] in H; [|discriminate].
    match type of H with context [bind ?c _] => destruct c as [mem0|] end;
      cbn [bind] in H; [|discriminate].
    unfold finish in H. destruct gpus as [g|]; [|discriminate].
    injection H as <-.
    destruct (resolve_accelerator_keeps rc m self custom (Some g) custom'
                (NODE_ID_PREFIX ++ addr) Hacc
                (resolve_resources_node m self is_head ip custom Hres))
      as [w [Hw Hone]].
    exists custom', w. repeat split; assumption. }
  destruct Hnode as [custom' [w [Hs [Hw [Hone Hr]]]]].
  split.
  - intros Hraise.
    apply (to_resource_dict_unresolved_aux rc s) in Hraise. congruence.
  - intros d Hd. unfold to_resource_dict in Hd. rewrite Hr in Hd.
    cbn [assert bind] in Hd. rewrite Hs in Hd.
    destruct (num_cpus s) as [cpus|]; [|discriminate].
    destruct (num_gpus s) as [gpus|]; [|discriminate].
    destruct (memory s) as [mem0|]; [|discriminate].
    destruct (object_store_memory s) as [osm|]; [|discriminate].
    destruct (check_quantities rc _); cbn [bind] in Hd; [|discriminate].
    injection Hd as <-. exists w. split; [|exact Hone].
    apply drop_zero_In. split.
    + unfold merged_resources.
      repeat apply In_set_other; try discriminate. apply get_In, Hw.
    + unfold one in Hone. rewrite Hone. discriminate.
Qed.

(** The head node, resolved and flattened. *)
Lemma resolve_then_to_resource_dict_witness :
  let rc := Examples.upstream_constants in
  let m := Examples.linux_node "CUDA" 32000000000 24000000000 16000000000 in
  exists s d v,
    resolve rc m Examples.unset true None = Return s
    /\ to_resource_dict rc s = Return d
    /\ In ("node:10.0.0.1", v) d.
Proof.
  intros rc m.
  destruct (resolve rc m Examples.unset true None) as [s|e] eqn:E;
    [|vm_compute in E; discriminate E].
  destruct (to_resource_dict rc s) as [d|e] eqn:Ed.
  - destruct (proj2 (resolve_then_to_resource_dict rc m Examples.unset true None s E)
                d Ed) as [v [Hin _]].
    exists s, d, v. split; [reflexivity|].
    split; [first [reflexivity|exact Ed]|exact Hin].
  - exfalso. vm_compute in E. injection E as <-. vm_compute in Ed. discriminate Ed.
Defined.

(** * Properties of the image names *)

Section ReleaseFacts.

Import Release.

Lemma replace_single_char (c : ascii) (skip_new : string) (s : string) :
  skip_new = EmptyString ->
  replace_from (String c EmptyString) skip_new 0 s = remove_char c s.
Proof.
  intros ->. induction s as [|a s IH]; [reflexivity|].
  cbn [replace_from remove_char String.prefix String.length Nat.sub].
  destruct (ascii_dec c a) as [<-|Hne].
  - rewrite Ascii.eqb_refl. destruct s; cbn [append]; exact IH.
  - assert (E : Ascii.eqb a c = false).
    { apply Ascii.eqb_neq. congruence. }
    rewrite E, IH. reflexivity.
Qed.

Lemma remove_char_clean (c : ascii) (s : string) :
  all_chars (other_than c) (remove_char c s) = true.
Proof.
  induction s as [|a s IH]; [reflexivity|]. cbn [remove_char].
  destruct (Ascii.eqb a c) eqn:E; [exact IH|].
  cbn [all_chars]. unfold other_than at 1. rewrite E, IH. reflexivity.
Qed.

Lemma remove_char_absent (c : ascii) (s : string) :
  all_chars (other_than c) s = true -> remove_char c s = s.
Proof.
  induction s as [|a s IH]; [reflexivity|]. cbn [all_chars remove_char].
  intros H. apply andb_true_iff in H as [Ha Hs].
  unfold other_than in Ha. apply negb_true_iff in Ha. rewrite Ha, (IH Hs).
  reflexivity.
Qed.

(** A string without the first character of [old] holds no occurrence of
    [old]. *)
Lemma replace_absent (c : ascii) (old' new s : string) :
  all_chars (other_than c) s = true ->
  replace_from (String c old') new 0 s = s.
Proof.
  induction s as [|a s IH]; [reflexivity|]. cbn [all_chars].
  intros H. apply andb_true_iff in H as [Ha Hs].
  unfold other_than in Ha. apply negb_true_iff, Ascii.eqb_neq in Ha.
  cbn [replace_from String.prefix].
  destruct (ascii_dec c a) as [E|_]; [congruence|].
  rewrite (IH Hs). reflexivity.
Qed.

Lemma all_chars_app (p : ascii -> bool) (a b : string) :
  all_chars p (a ++ b) = (all_chars p a && all_chars p b)%bool.
Proof.
  induction a as [|c a IH]; [reflexivity|]. cbn [append all_chars].
  rewrite IH. apply andb_assoc.
Qed.

Lemma substring_prefix (n : nat) (s : string) :
  String.prefix (substring 0 n s) s = true
  /\ String.length (substring 0 n s) = Nat.min n (String.length s).
Proof.
  revert s. induction n as [|n IH]; intros s.
  - destruct s; split; reflexivity.
  - destruct s as [|c s]; [split; reflexivity|].
    cbn [substring String.prefix String.length Nat.min].
    destruct (IH s) as [Hp Hl].
    destruct (ascii_dec c c) as [_|Hne]; [|contradiction].
    split; [exact Hp|]. rewrite Hl. reflexivity.
Qed.

End ReleaseFacts.

(** X14.  [get_ray_image] and [get_anyscale_byod_image] return an image name
    exactly when the test maps [python] to a string.  A test without the key
    falls on [DEFAULT_PYTHON_VERSION], which is a tuple and has no
    [replace]: both methods raise [AttributeError], whatever the
    environment. *)
Theorem release_image_requires_python_string (default : list Z)
    (commit : option string) (self : Release.Test) :
  ((exists image, Release.get_ray_image default commit self = Release.Done image)
   <-> exists v, Release.lookup self "python" = Some (Release.Str v))
  /\ ((exists image,
         Release.get_anyscale_byod_image default commit self = Release.Done image)
      <-> exists v, Release.lookup self "python" = Some (Release.Str v))
  /\ (Release.lookup self "python" = None ->
      Release.get_ray_image default commit self
      = Release.Fail (Release.AttributeError "replace")
      /\ Release.get_anyscale_byod_image default commit self
         = Release.Fail (Release.AttributeError "replace")).
Proof.
  unfold Release.get_anyscale_byod_image, Release.get_ray_image,
    Release.get_python_version.
  destruct (Release.lookup self "python") as [[v|t|]|]; repeat split;
    try (intros [x Hx]; discriminate Hx); try discriminate; eauto.
Qed.

(** The test of the test file, [{"name": "test", "cluster": {}}]. *)
Lemma release_image_requires_python_string_witness :
  let self := [("name", Release.Str "test"); ("cluster", Release.Other)] in
  Release.get_ray_image [3; 7] None self
  = Release.Fail (Release.AttributeError "replace").
Proof.
  intros self.
  exact (proj1 (proj2 (proj2 (release_image_requires_python_string [3; 7] None self))
                  eq_refl)).
Defined.

(** X15.  For a test that maps [python] to the string [v], the image is
    [rayproject/ray:<tag>-py-<version>], where the version is [v] without
    its dots, and the tag is [nightly] when [BUILDKITE_COMMIT] is unset or
    empty and its first six characters (or all of it when shorter)
    otherwise. *)
Theorem release_ray_image_format (default : list Z) (commit : option string)
    (self : Release.Test) (v : string) :
  Release.lookup self "python" = Some (Release.Str v) ->
  exists tag,
    Release.get_ray_image default commit self
    = Release.Done ("rayproject/ray:" ++ tag ++ "-py-" ++ remove_char "." v)
    /\ tag <> EmptyString
    /\ all_chars (other_than ".") (remove_char "." v) = true
    /\ (commit = None \/ commit = Some EmptyString -> tag = "nightly")
    /\ (forall c, commit = Some c -> c <> EmptyString ->
          String.prefix tag c = true
          /\ String.length tag = Nat.min 6 (String.length c)).
Proof.
  intros Hv. exists (Release.ray_version commit).
  unfold Release.get_ray_image, Release.get_python_version. rewrite Hv.
  unfold Release.replace. rewrite replace_single_char by reflexivity.
  split; [reflexivity|]. split; [|split; [apply remove_char_clean|split]].
  - unfold Release.ray_version, Release.or_else.
    destruct (substring 0 6 _); discriminate.
  - intros [->| ->]; reflexivity.
  - intros c -> Hc. unfold Release.ray_version.
    destruct (substring_prefix 6 c) as [Hp Hl].
    destruct c as [|a c']; [contradiction|].
    cbn [substring Release.or_else] in *. split; assumption.
Qed.

(** The commit and the version of the test file. *)
Lemma release_ray_image_format_witness :
  let self := [("name", Release.Str "test"); ("python", Release.Str "3.8")] in
  exists tag,
    Release.get_ray_image [3; 7] (Some "1234567890") self
    = Release.Done ("rayproject/ray:" ++ tag ++ "-py-38")
    /\ String.prefix tag "1234567890" = true
    /\ String.length tag = 6%nat.
Proof.
  intros self.
  destruct (release_ray_image_format [3; 7] (Some "1234567890") self "3.8" eq_refl)
    as [tag [H [_ [_ [_ Hc]]]]].
  exists tag. split; [exact H|].
  apply (Hc "1234567890" eq_refl). discriminate.
Defined.

(** X16.  The anyscale image is always in [anyscale/ray]: it is
    [anyscale/ray:] followed by the rest of the ray image in which
    [rayproject] is replaced.  When neither the tag nor the version holds
    the letter [r], the rest is unchanged, and the image is
    [anyscale/ray:<tag>-py-<version>]. *)
Theorem release_anyscale_image_format (default : list Z) (commit : option string)
    (self : Release.Test) (v : string) :
  Release.lookup self "python" = Some (Release.Str v) ->
  let tag := Release.ray_version commit in
  let rest := tag ++ "-py-" ++ remove_char "." v in
  Release.get_ray_image default commit self
  = Release.Done ("rayproject/ray:" ++ rest)
  /\ Release.get_anyscale_byod_image default commit self
     = Release.Done ("anyscale/ray:" ++ Release.replace rest "rayproject" "anyscale")
  /\ (all_chars (other_than "r") tag = true ->
      all_chars (other_than "r") v = true ->
      Release.get_anyscale_byod_image default commit self
      = Release.Done ("anyscale/ray:" ++ rest)).
Proof.
  intros Hv tag rest.
  assert (Hray : Release.get_ray_image default commit self
                 = Release.Done ("rayproject/ray:" ++ rest)).
  { unfold Release.get_ray_image, Release.get_python_version. rewrite Hv.
    unfold Release.replace. rewrite replace_single_char by reflexivity.
    reflexivity. }
  assert (Hany : Release.get_anyscale_byod_image default commit self
                 = Release.Done ("anyscale/ray:"
                                 ++ Release.replace rest "rayproject" "anyscale")).
  { unfold Release.get_anyscale_byod_image. rewrite Hray.
    unfold Release.replace. reflexivity. }
  split; [exact Hray|]. split; [exact Hany|].
  intros Htag Hver. rewrite Hany. unfold Release.replace.
  rewrite replace_absent; [reflexivity|].
  unfold rest. rewrite !all_chars_app, Htag. cbn [andb].
  assert (Hclean : forall s, all_chars (other_than "r") s = true ->
                             all_chars (other_than "r") (remove_char "." s) = true).
  { induction s as [|a s IH]; [reflexivity|]. cbn [all_chars remove_char].
    intros H. apply andb_true_iff in H as [Ha Hs].
    destruct (Ascii.eqb a "."); [exact (IH Hs)|].
    cbn [all_chars]. rewrite Ha, (IH Hs). reflexivity. }
  rewrite (Hclean v Hver). reflexivity.
Qed.

(** The commit and the version of the test file. *)
Lemma release_anyscale_image_format_witness :
  let self := [("name", Release.Str "test"); ("python", Release.Str "3.8")] in
  Release.get_anyscale_byod_image [3; 7] (Some "1234567890") self
  = Release.Done "anyscale/ray:123456-py-38".
Proof.
  intros self.
  exact (proj2 (proj2 (release_anyscale_image_format [3; 7] (Some "1234567890")
                         self "3.8" eq_refl)) eq_refl eq_refl).
Defined.

(** * Further properties of accelerator detection *)

Section RequestedCountFacts.

Variable rc : ray_constants.
Variable m : machine.

(** With a requested count, the accelerator stage raises nothing but the
    visible devices error. *)
Lemma resolve_accelerator_requested self custom n e :
  num_gpus self = Some n ->
  resolve_accelerator rc m self custom = Raise e ->
  exists v, e = ValueError (MismatchedVisibleDeviceCount v).
Proof.
  intros Hn. unfold resolve_accelerator. rewrite Hn.
  destruct (String.eqb (get_current_accelerator m) "CUDA").
  - unfold _get_cuda_info.
    destruct (exceeds_visible (Some n) (get_cuda_visible_devices m));
      cbn [bind]; [|discriminate].
    intros [= <-]. eauto.
  - destruct (String.eqb (get_current_accelerator m) "XPU"); [|discriminate].
    unfold _get_xpu_info.
    destruct (exceeds_visible (Some n) (get_xpu_visible_devices m));
      cbn [bind]; [|discriminate].
    intros [= <-]. eauto.
Qed.

End RequestedCountFacts.

(** X17.  A requested count is returned as it is and no device is counted.
    When the list of visible devices is absent, [_get_cuda_info] and
    [_get_xpu_info] return the requested count on every machine, also one
    without any device and one whose counting calls fail; and no failure of
    a library or system call leaves [resolve] when the declaration requests
    a count. *)
Theorem requested_count_is_returned (rc : ray_constants) (m : machine) (n : number) :
  (get_cuda_visible_devices m = None ->
   exists types, _get_cuda_info rc m (Some n) = Return (n, types))
  /\ (get_xpu_visible_devices m = None ->
      exists types, _get_xpu_info rc m (Some n) = Return (n, types))
  /\ (forall self is_head ip f,
        num_gpus self = Some n ->
        resolve rc m self is_head ip <> Raise (Propagated f)).
Proof.
  split; [|split].
  - intros Hids. unfold _get_cuda_info. rewrite Hids. cbn [exceeds_visible bind].
    eexists. reflexivity.
  - intros Hids. unfold _get_xpu_info. rewrite Hids. cbn [exceeds_visible bind].
    eexists. reflexivity.
  - intros self is_head ip f Hn. rewrite resolve_unfold.
    destruct (resolve_resources m self is_head ip) as [custom|e] eqn:Hres;
      cbn [bind].
    2:{ apply resolve_resources_raise in Hres. intros [= ->]. discriminate Hres. }
    destruct (resolve_accelerator rc m self custom) as [[gpus custom']|e] eqn:Hacc;
      cbn [bind].
    2:{ destruct (resolve_accelerator_requested rc m self custom n e Hn Hacc)
          as [v ->]. discriminate. }
    destruct (resolve_redis_max_memory rc m self) as [redis|e] eqn:Hredis;
      cbn [bind].
    2:{ apply resolve_redis_max_memory_raise in Hredis. subst e. discriminate. }
    match goal with |- context [bind ?c _] => destruct c as [mem0|e] eqn:Hmem end;
      cbn [bind].
    2:{ apply resolve_memory_raise in Hmem. subst e. discriminate. }
    unfold finish. destruct gpus; discriminate.
Qed.

(** The Windows node on which counting the GPUs fails: the empty declaration
    does not resolve, one that requests eight GPUs does. *)
Lemma requested_count_is_returned_witness :
  let rc := Examples.upstream_constants in
  let m := Examples.windows_node_without_wmic in
  let self := mkResourceSpec None (Some (PyInt 8)) None None None None in
  resolve rc m Examples.unset false None
  = Raise (Propagated (OtherFailure "FileNotFoundError"))
  /\ (exists types, _get_cuda_info rc m (Some (PyInt 8)) = Return (PyInt 8, types))
  /\ resolve rc m self false None
     <> Raise (Propagated (OtherFailure "FileNotFoundError")).
Proof.
  intros rc m self. split; [reflexivity|].
  destruct (requested_count_is_returned rc m (PyInt 8)) as [Hc [_ Hr]].
  split; [exact (Hc eq_refl)|].
  exact (Hr self false None (OtherFailure "FileNotFoundError") eq_refl).
Defined.

Section HeadFlagFacts.

Variable rc : ray_constants.
Variable m : machine.

(** The count of the accelerator stage does not depend on the custom
    resources it is given. *)
Lemma resolve_accelerator_same_count self c1 c2 g1 g2 c1' c2' :
  resolve_accelerator rc m self c1 = Return (g1, c1') ->
  resolve_accelerator rc m self c2 = Return (g2, c2') ->
  g1 = g2.
Proof.
  unfold resolve_accelerator.
  destruct (String.eqb (get_current_accelerator m) "CUDA").
  - destruct (_get_cuda_info rc m (num_gpus self)) as [[n t]|];
      cbn [bind]; [|discriminate].
    intros [= <- _] [= <- _]. reflexivity.
  - destruct (String.eqb (get_current_accelerator m) "XPU").
    + destruct (_get_xpu_info rc m (num_gpus self)) as [[n t]|];
        cbn [bind]; [|discriminate].
      intros [= <- _] [= <- _]. reflexivity.
    + intros [= <- _] [= <- _]. reflexivity.
Qed.

End HeadFlagFacts.

(** X18.  The head flag and the node address change the custom resources
    and the default task memory only: two resolutions of one declaration on
    one machine, as head or not and for any addresses, return the same CPU
    count, accelerator count, object store memory and redis cap. *)
Theorem resolve_head_flag_independent (rc : ray_constants) (m : machine)
    (self : ResourceSpec) (h1 h2 : bool) (ip1 ip2 : option string)
    (s1 s2 : ResourceSpec) :
  resolve rc m self h1 ip1 = Return s1 ->
  resolve rc m self h2 ip2 = Return s2 ->
  num_cpus s1 = num_cpus s2
  /\ num_gpus s1 = num_gpus s2
  /\ object_store_memory s1 = object_store_memory s2
  /\ redis_max_memory s1 = redis_max_memory s2.
Proof.
  intros H1 H2. rewrite resolve_unfold in H1, H2.
  destruct (resolve_resources m self h1 ip1) as [c1|]; cbn [bind] in H1;
    [|discriminate].
  destruct (resolve_resources m self h2 ip2) as [c2|]; cbn [bind] in H2;
    [|discriminate].
  destruct (resolve_accelerator rc m self c1) as [[g1 c1']|] eqn:A1;
    cbn [bind] in H1; [|discriminate].
  destruct (resolve_accelerator rc m self c2) as [[g2 c2']|] eqn:A2;
    cbn [bind] in H2; [|discriminate].
  pose proof (resolve_accelerator_same_count rc m self _ _ _ _ _ _ A1 A2) as <-.
  destruct (resolve_redis_max_memory rc m self) as [redis|];
    cbn [bind] in H1, H2; [|discriminate].
  match type of H1 with context [bind ?c _] => destruct c as [m1|] end;
    cbn [bind] in H1; [|discriminate].
  match type of H2 with context [bind ?c _] => destruct c as [m2|] end;
    cbn [bind] in H2; [|discriminate].
  unfold finish in H1, H2. destruct g1 as [g|]; [|discriminate].
  injection H1 as <-. injection H2 as <-. repeat split.
Qed.

(** The 32 GB node resolved as head and as worker: the task memory differs
    by the redis cap, the rest of the sizes agree. *)
Lemma resolve_head_flag_independent_witness :
  let rc := Examples.upstream_constants in
  let m := Examples.linux_node "CUDA" 32000000000 24000000000 16000000000 in
  exists s1 s2,
    resolve rc m Examples.unset true None = Return s1
    /\ resolve rc m Examples.unset false (Some "10.0.0.9") = Return s2
    /\ memory s1 <> memory s2
    /\ object_store_memory s1 = object_store_memory s2.
Proof.
  intros rc m.
  destruct (resolve rc m Examples.unset true None) as [s1|e] eqn:E1;
    [|vm_compute in E1; discriminate E1].
  destruct (resolve rc m Examples.unset false (Some "10.0.0.9")) as [s2|e] eqn:E2;
    [|vm_compute in E2; discriminate E2].
  destruct (resolve_head_flag_independent rc m Examples.unset true false None
              (Some "10.0.0.9") s1 s2 E1 E2) as [_ [_ [Ho _]]].
  exists s1, s2. split; [reflexivity|]. split; [reflexivity|].
  split; [|exact Ho].
  vm_compute in E1, E2. injection E1 as <-. injection E2 as <-.
  cbn [memory]. discriminate.
Defined.

Section ModelLineFacts.

Lemma full_model_name_skip (pre rest : list string) :
  (forall l, In l pre ->
     forall a b, Str.split ":" l = [a; b] -> Str.strip a <> "Model") ->
  full_model_name (pre ++ rest) = full_model_name rest.
Proof.
  induction pre as [|l pre IH]; intros H; [reflexivity|].
  cbn [app full_model_name].
  assert (IH' : full_model_name (pre ++ rest) = full_model_name rest).
  { apply IH. intros l0 Hin. apply H. right. exact Hin. }
  destruct (Str.split ":" l) as [|a [|b [|c t]]] eqn:E; try exact IH'.
  destruct (String.eqb (Str.strip a) "Model") eqn:Ea; [|exact IH'].
  apply String.eqb_eq in Ea. exfalso.
  exact (H l (or_introl eq_refl) a b E Ea).
Qed.

End ModelLineFacts.

(** X19.  [_constraints_from_gpu_info] reads the model from the first line of
    the text that splits at [:] into exactly two parts, the first being
    [Model] once stripped: the lines before it and after it do not count,
    nor does a line with a second colon.  Without such a line, and for
    [None], there is no constraint. *)
Theorem _constraints_from_gpu_info_first_model (rc : ray_constants) (text : string)
    (pre post : list string) (line k v : string) :
  (forall l, In l pre ->
     forall a b, Str.split ":" l = [a; b] -> Str.strip a <> "Model") ->
  (Str.split (ascii_of_nat 10) text = (pre ++ line :: post)%list ->
   Str.split ":" line = [k; v] -> Str.strip k = "Model" ->
   _constraints_from_gpu_info rc (Some text)
   = constraint_of rc (_pretty_gpu_name (Some (Str.strip v))))
  /\ (Str.split (ascii_of_nat 10) text = pre ->
      _constraints_from_gpu_info rc (Some text) = [])
  /\ _constraints_from_gpu_info rc None = [].
Proof.
  intros Hpre. split; [|split; [|reflexivity]].
  - intros Hlines Hline Hk. unfold _constraints_from_gpu_info.
    rewrite Hlines, (full_model_name_skip pre (line :: post) Hpre).
    cbn [full_model_name]. rewrite Hline.
    apply String.eqb_eq in Hk. rewrite Hk. reflexivity.
  - intros Hlines. unfold _constraints_from_gpu_info. rewrite Hlines.
    rewrite <- (app_nil_r pre), (full_model_name_skip pre [] Hpre).
    reflexivity.
Qed.

(** An information text whose first model line has a second colon: the
    second model line is the one that counts. *)
Lemma _constraints_from_gpu_info_first_model_witness :
  let rc := Examples.upstream_constants in
  let text := "Model: Tesla: K80" ++ Examples.newline
              ++ "Model:   Tesla V100-SXM2-16GB" ++ Examples.newline
              ++ "Model: Tesla T4" in
  _constraints_from_gpu_info rc (Some text) = [("accelerator_type:V100", PyInt 1)].
Proof.
  intros rc text.
  refine (eq_trans
            (proj1 (_constraints_from_gpu_info_first_model rc text
                      ["Model: Tesla: K80"] ["Model: Tesla T4"]
                      "Model:   Tesla V100-SXM2-16GB" "Model"
                      "   Tesla V100-SXM2-16GB" _) eq_refl eq_refl eq_refl) _).
  - intros l [<-|[]] a b H. vm_compute in H. discriminate H.
  - reflexivity.
Defined.

(** The name of a Tesla V100 as the driver gives it, and a name without a
    space. *)
Lemma _pretty_gpu_name_spec_witness :
  _pretty_gpu_name (Some "Tesla V100-SXM2-16GB") = Some "V100"
  /\ _pretty_gpu_name (Some "A100") = None.
Proof.
  split.
  - apply (proj2 (_pretty_gpu_name_spec "Tesla V100-SXM2-16GB" "V100")).
    exists "Tesla", " ", "-SXM2-16GB". repeat split; try discriminate.
    right. eexists _, _. split; reflexivity.
  - reflexivity.
Defined.
